(** * Weather and climate-normals pipelines: embedding and properties

    The development embeds the data-shaping code of the repository:

    - [lib/normalsClient.ts]: [parseNumber], [parseCsv],
      [fetchNormalsForStation], [filterNormalsByDate], [summarizeNormals];
    - [pages/api/normals.ts]: [handler];
    - the forecast component: [fetchWeather];
    - [pages/index.tsx]: [handleSubmit].

    JavaScript values are modelled as follows.  A JS string is a
    [string]: each [ascii] stands for one UTF-16 code unit in the range
    U+0000..U+00FF.  A JS number is a primitive binary64 [float].  A value
    that may be [null] or [undefined] is an [option].  A call that may
    throw returns a [Completion]. *)

From Stdlib Require Import ZArith List String Ascii Bool Floats Lia.
From Stdlib Require Import DecimalString Sorted Permutation.
From Stdlib Require QArith Qround.
Import ListNotations.

Set Implicit Arguments.
Set Warnings "-inexact-float,-register-all".

(* ================================================================== *)
(** * Part I: the embedding *)
(* ================================================================== *)

(** ** The JavaScript runtime pieces the code relies on *)

Module JS.

Local Open Scope string_scope.

(** *** Completions: normal return or a thrown error object *)

Record Error := mkError { name : string; message : string }.

Inductive Completion (A : Type) : Type :=
| Return (v : A)
| Throw (e : Error).
Arguments Return {A} v.
Arguments Throw {A} e.

Definition bind {A B} (c : Completion A) (k : A -> Completion B)
  : Completion B :=
  match c with
  | Return v => k v
  | Throw e => Throw e
  end.

(** What a piece of code does to the outside while it runs. *)
Inductive Event :=
| HttpsGet (url : string)
| ConsoleError (e : Error).

(** An asynchronous function run to completion: the events in the order
    they happen, and how the promise settles. *)
Definition Task (A : Type) : Type := list Event * Completion A.

(** *** Strings *)

(** [WhiteSpace] and [LineTerminator] code units below U+0100: TAB, LF, VT,
    FF, CR, SP and NBSP. *)
Definition isWhiteSpace (c : ascii) : bool :=
  let n := N_of_ascii c in
  ((9 <=? n) && (n <=? 13) || (n =? 32) || (n =? 160))%N.

Fixpoint trimStart (s : string) : string :=
  match s with
  | EmptyString => EmptyString
  | String c r => if isWhiteSpace c then trimStart r else s
  end.

Fixpoint trimEnd (s : string) : string :=
  match s with
  | EmptyString => EmptyString
  | String c r =>
      match trimEnd r with
      | EmptyString =>
          if isWhiteSpace c then EmptyString else String c EmptyString
      | r' => String c r'
      end
  end.

(** [String.prototype.trim]. *)
Definition trim (s : string) : string := trimEnd (trimStart s).

(** Lower-case mapping of one code unit below U+0100: [A-Z] and the
    Latin-1 capitals U+00C0..U+00DE (U+00D7, the multiplication sign, is
    not a letter). *)
Definition toLowerCase_unit (c : ascii) : ascii :=
  let n := N_of_ascii c in
  if ((65 <=? n) && (n <=? 90))%N then ascii_of_N (n + 32)
  else if ((192 <=? n) && (n <=? 222) && negb (n =? 215))%N
       then ascii_of_N (n + 32)
       else c.

(** [String.prototype.toLowerCase]. *)
Fixpoint toLowerCase (s : string) : string :=
  match s with
  | EmptyString => EmptyString
  | String c r => String (toLowerCase_unit c) (toLowerCase r)
  end.

(** [String.prototype.includes]: [sub] occurs somewhere in [s]. *)
Fixpoint includes (s sub : string) : bool :=
  prefix sub s ||
  match s with
  | EmptyString => false
  | String _ r => includes r sub
  end.

(** [String.prototype.split] with the regular expression [/\r?\n/]: the
    separators are the occurrences of LF, together with the CR that
    immediately precedes one.  [cur] is the piece read so far. *)
Fixpoint split_lines_from (cur : string) (s : string) : list string :=
  match s with
  | EmptyString => [cur]
  | String c r =>
      if (c =? "010")%char then cur :: split_lines_from EmptyString r
      else
        match r with
        | String c' r' =>
            if ((c =? "013") && (c' =? "010"))%char
            then cur :: split_lines_from EmptyString r'
            else split_lines_from (cur ++ String c EmptyString) r
        | EmptyString => split_lines_from (cur ++ String c EmptyString) r
        end
  end.

Definition split_lines (s : string) : list string :=
  split_lines_from EmptyString s.

(** [String.prototype.split] with a one-unit separator string. *)
Fixpoint split_from (sep : ascii) (cur : string) (s : string) : list string :=
  match s with
  | EmptyString => [cur]
  | String c r =>
      if (c =? sep)%char then cur :: split_from sep EmptyString r
      else split_from sep (cur ++ String c EmptyString) r
  end.

Definition split (sep : ascii) (s : string) : list string :=
  split_from sep EmptyString s.

(** Relational operators on strings compare code units lexicographically;
    [a >= b] is evaluated as [not (a < b)] and [a <= b] as [not (b < a)]. *)
Definition str_lt (a b : string) : bool := String.ltb a b.
Definition str_ge (a b : string) : bool := negb (str_lt a b).
Definition str_le (a b : string) : bool := negb (str_lt b a).

(** Truthiness of a value that is a string or [undefined]. *)
Definition truthy_string (o : option string) : bool :=
  match o with
  | None => false
  | Some s => negb (s =? "")
  end.

(** *** Numbers *)

Local Open Scope Z_scope.

(** The Number value for an integer: the nearest binary64, ties to even. *)
Definition number_of_Z (n : Z) : float :=
  SF2Prim (binary_normalize prec emax n 0 false).

(** The Number value for the decimal [m * 10 ^ e10] with [0 <= m], signed
    by [neg]; exact rational arithmetic, then one rounding to nearest,
    ties to even. *)
Definition number_of_decimal (neg : bool) (m e10 : Z) : float :=
  if m =? 0 then (if neg then neg_zero else zero)
  else if 0 <=? e10
       then SF2Prim (binary_normalize prec emax
                       (cond_Zopp neg (m * 10 ^ e10)) 0 neg)
       else let '(q, e', l) :=
                SFdiv_core_binary prec emax m 0 (10 ^ (- e10)) 0 in
            SF2Prim (binary_round_aux prec emax neg q e' l).

Definition isDigit (c : ascii) : bool :=
  let n := N_of_ascii c in ((48 <=? n) && (n <=? 57))%N.

Definition digit_value (c : ascii) : Z := Z.of_N (N_of_ascii c) - 48.

(** The longest run of decimal digits at the head of [s], then the rest. *)
Fixpoint span_digits (s : string) : string * string :=
  match s with
  | EmptyString => (EmptyString, EmptyString)
  | String c r =>
      if isDigit c
      then let '(ds, rest) := span_digits r in (String c ds, rest)
      else (EmptyString, s)
  end.

(** The mathematical value of a run of digits, continuing from [acc]. *)
Fixpoint digits_value (acc : Z) (ds : string) : Z :=
  match ds with
  | EmptyString => acc
  | String c r => digits_value (10 * acc + digit_value c) r
  end.

(** An optional sign at the head of [s]: whether it is a minus, and the
    rest. *)
Definition read_sign (s : string) : bool * string :=
  match s with
  | String "-" r => (true, r)
  | String "+" r => (false, r)
  | _ => (false, s)
  end.

(** [ExponentPart] at the head of [s], when there is a complete one: an
    indicator [e] or [E], an optional sign and at least one digit. *)
Definition read_exponent (s : string) : Z :=
  match s with
  | String c r =>
      if ((c =? "e") || (c =? "E"))%char then
        let '(neg, r1) := read_sign r in
        let '(ds, _) := span_digits r1 in
        match ds with
        | EmptyString => 0
        | _ => cond_Zopp neg (digits_value 0 ds)
        end
      else 0
  | EmptyString => 0
  end.

(** The value of the longest prefix of [s] that is a
    [StrUnsignedDecimalLiteral], or [None] when no prefix is one. *)
Definition read_unsigned_decimal (neg : bool) (s : string) : option float :=
  if prefix "Infinity" s then Some (if neg then neg_infinity else infinity)
  else
    let '(ip, r1) := span_digits s in
    let '(fp, r2, dotted) :=
      match r1 with
      | String "." r =>
          let '(fp, r2) := span_digits r in
          match ip, fp with
          | EmptyString, EmptyString => (EmptyString, r1, false)
          | _, _ => (fp, r2, true)
          end
      | _ => (EmptyString, r1, false)
      end in
    match ip, dotted with
    | EmptyString, false => None
    | _, _ =>
        let e := read_exponent r2 in
        Some (number_of_decimal neg (digits_value 0 (ip ++ fp))
                (e - Z.of_nat (String.length fp)))
    end.

(** The global [parseFloat], applied to a string. *)
Definition parseFloat_string (s : string) : float :=
  let '(neg, r) := read_sign (trimStart s) in
  match read_unsigned_decimal neg r with
  | Some x => x
  | None => nan
  end.

(** The global [parseFloat]: the argument is first converted to a string,
    and [undefined] converts to ["undefined"]. *)
Definition parseFloat (v : option string) : float :=
  match v with
  | Some s => parseFloat_string s
  | None => parseFloat_string "undefined"
  end.

Definition Number_isNaN (x : float) : bool := is_nan x.

(** [Math.min] of a list of numbers: [lowest] starts at [+Infinity]; a NaN
    argument gives NaN; [-0] is below [+0]. *)
Fixpoint Math_min_from (lowest : float) (coerced : list float) : float :=
  match coerced with
  | [] => lowest
  | number :: rest =>
      if is_nan number then nan
      else
        match classify number, classify lowest with
        | NZero, PZero => Math_min_from number rest
        | _, _ =>
            if (number <? lowest)%float then Math_min_from number rest
            else Math_min_from lowest rest
        end
  end.

Definition Math_min (values : list float) : float :=
  Math_min_from infinity values.

(** [Math.max]: [highest] starts at [-Infinity]; [+0] is above [-0]. *)
Fixpoint Math_max_from (highest : float) (coerced : list float) : float :=
  match coerced with
  | [] => highest
  | number :: rest =>
      if is_nan number then nan
      else
        match classify number, classify highest with
        | PZero, NZero => Math_max_from number rest
        | _, _ =>
            if (highest <? number)%float then Math_max_from number rest
            else Math_max_from highest rest
        end
  end.

Definition Math_max (values : list float) : float :=
  Math_max_from neg_infinity values.

(** The integer nearest to [m / 2 ^ k], the larger one on a tie:
    [floor (m / 2 ^ k + 1 / 2)]. *)
Definition round_half_up (m k : Z) : Z := (2 * m + 2 ^ k) / 2 ^ (k + 1).

(** [Math.round]: the nearest integral Number, the one closer to
    [+Infinity] on a tie; NaN, infinities and zeros are returned as they
    are, and a result of zero keeps the sign of the argument. *)
Definition Math_round (x : float) : float :=
  match Prim2SF x with
  | S754_finite s m e =>
      if 0 <=? e then x
      else
        let n := round_half_up (cond_Zopp s (Zpos m)) (- e) in
        if n =? 0 then (if s then neg_zero else zero) else number_of_Z n
  | _ => x
  end.

(** Decimal digits of a non-negative integer. *)
Definition digits_of_Z (n : Z) : string :=
  NilZero.string_of_uint (N.to_uint (Z.to_N n)).

(** Step 10 of [Number.prototype.toFixed] for a positive finite value
    [m * 2 ^ e] below [10 ^ 21] and [f] fraction digits: [n] is the integer
    nearest to the value times [10 ^ f], the larger one on a tie. *)
Definition toFixed_n (f : nat) (m : positive) (e : Z) : Z :=
  let scaled := Zpos m * 10 ^ Z.of_nat f in
  if 0 <=? e then scaled * 2 ^ e else round_half_up scaled (- e).

Fixpoint zeros (k : nat) : string :=
  match k with
  | O => EmptyString
  | S k' => String "0" (zeros k')
  end.

(** The digits of [n], left-padded with zeros to [f + 1] units, with a
    point before the last [f] units (no point when [f] is zero). *)
Definition toFixed_digits (f : nat) (n : Z) : string :=
  let m := digits_of_Z n in
  let k := String.length m in
  let m := if Nat.leb k f then zeros (f + 1 - k) ++ m else m in
  let k := String.length m in
  match f with
  | O => m
  | _ => substring 0 (k - f) m ++ "." ++ substring (k - f) f m
  end.

(** [Number::toString] of a finite integral value [N >= 10 ^ 21]: the
    fewest significant digits whose value still rounds to the Number, the
    closest such value, written in exponent form. *)
Definition shortest_candidate (x : float) (N : Z) (D k : nat) : option Z :=
  let p := 10 ^ Z.of_nat (D - k) in
  let lo := (N / p) * p in
  let hi := lo + p in
  let ok v := (number_of_Z v =? x)%float in
  match ok lo, ok hi with
  | true, true =>
      Some (if N - lo <? hi - N then lo
            else if hi - N <? N - lo then hi
            else if Z.even (lo / p) then lo else hi)
  | true, false => Some lo
  | false, true => Some hi
  | false, false => None
  end.

Fixpoint shortest_from (x : float) (N : Z) (D k fuel : nat) : Z :=
  match fuel with
  | O => N
  | S fuel' =>
      match shortest_candidate x N D k with
      | Some v => v
      | None => shortest_from x N D (S k) fuel'
      end
  end.

Fixpoint strip_trailing_zeros (s : string) : string :=
  match s with
  | EmptyString => EmptyString
  | String c r =>
      match strip_trailing_zeros r with
      | EmptyString =>
          if (c =? "0")%char then EmptyString else String c EmptyString
      | r' => String c r'
      end
  end.

Definition Number_toString_large (N : Z) : string :=
  let D := String.length (digits_of_Z N) in
  let v := shortest_from (number_of_Z N) N D 1 D in
  let ds := digits_of_Z v in
  let n := String.length ds in
  let e := digits_of_Z (Z.of_nat n - 1) in
  match strip_trailing_zeros ds with
  | String d EmptyString => String d EmptyString ++ "e+" ++ e
  | String d r => String d EmptyString ++ "." ++ r ++ "e+" ++ e
  | EmptyString => "0"
  end.

(** [Number.prototype.toFixed] with [f] fraction digits ([f <= 100]). *)
Definition toFixed (f : nat) (x : float) : string :=
  match Prim2SF x with
  | S754_nan => "NaN"
  | S754_infinity s => if s then "-Infinity" else "Infinity"
  | S754_zero _ => toFixed_digits f 0
  | S754_finite s m e =>
      (if s then "-" else "") ++
      (if (0 <=? e) && (10 ^ 21 <=? Zpos m * 2 ^ e)
       then Number_toString_large (Zpos m * 2 ^ e)
       else toFixed_digits f (toFixed_n f m e))
  end.

End JS.

(** ** [lib/normalsClient.ts] *)

Module NormalsClient.
Import JS.
Local Open Scope string_scope.

Record DailyNormal := {
  station : string;
  date : string;
  meanTempF : option float;
  minTempF : option float;
  maxTempF : option float;
  precipIn : option float
}.

(** [value] is [None] when the caller passes [undefined], which happens for
    a row with fewer than five cells. *)
Definition parseNumber (value : option string) : option float :=
  let n := parseFloat value in
  if Number_isNaN n then None else Some n.

(** The error of [lines[0].toLowerCase()] when [lines] is empty. *)
Definition undefined_toLowerCase : Error :=
  mkError "TypeError"
    "Cannot read properties of undefined (reading 'toLowerCase')".

(** The callback of [dataLines.map]: the destructuring
    [[date, mean, max, min, precip] = line.split(",")]; a missing cell is
    [undefined]. *)
Definition parseRow (station : string) (line : string) : DailyNormal :=
  let cells := split "," line in
  {| station := station;
     date := hd "" cells;
     meanTempF := parseNumber (nth_error cells 1);
     maxTempF := parseNumber (nth_error cells 2);
     minTempF := parseNumber (nth_error cells 3);
     precipIn := parseNumber (nth_error cells 4) |}.

Definition parseCsv (station csvText : string)
  : Completion (list DailyNormal) :=
  let lines := filter (fun l => negb (trim l =? "")) (split_lines csvText) in
  match lines with
  | [] => Throw undefined_toLowerCase
  | first :: rest =>
      let dataLines :=
        if includes (toLowerCase first) "date" then rest else lines in
      Return (map (parseRow station) dataLines)
  end.

(** What one [https.get] leads to: a response, with its status code and
    the chunks of its body, or an [error] event of the request. *)
Inductive HttpsOutcome :=
| Response (statusCode : option Z) (chunks : list string)
| RequestError (e : Error).

(** The upstream, as a function of the URL requested. *)
Definition Upstream := string -> HttpsOutcome.

Definition normals_url (station : string) : string :=
  "https://noaa-normals-pds.s3.amazonaws.com/normals-daily/"
    ++ station ++ ".csv".

(** [ToString] of an integral status code. *)
Definition status_text (n : Z) : string :=
  NilZero.string_of_int (Z.to_int n).

Definition upstream_error (statusCode : Z) (station : string) : Error :=
  mkError "Error"
    ("HTTP " ++ status_text statusCode ++ " from NOAA for station " ++ station).

(** The promise that yields [csvText]: rejected when the status code is
    truthy and at least 400, or on a request error; resolved with the
    concatenated chunks otherwise. *)
Definition fetch_csvText (upstream : Upstream) (station : string)
  : Completion string :=
  match upstream (normals_url station) with
  | Response (Some statusCode) chunks =>
      if negb (statusCode =? 0)%Z && (400 <=? statusCode)%Z
      then Throw (upstream_error statusCode station)
      else Return (fold_left append chunks "")
  | Response None chunks => Return (fold_left append chunks "")
  | RequestError e => Throw e
  end.

Definition fetchNormalsForStation (upstream : Upstream) (station : string)
  : Task (list DailyNormal) :=
  ([HttpsGet (normals_url station)],
   bind (fetch_csvText upstream station) (parseCsv station)).

Definition filterNormalsByDate (records : list DailyNormal)
    (startDate endDate : option string) : list DailyNormal :=
  let filtered := records in
  let filtered :=
    match startDate with
    | Some start =>
        if truthy_string startDate
        then filter (fun r => str_ge (date r) start) filtered
        else filtered
    | None => filtered
    end in
  let filtered :=
    match endDate with
    | Some end_ =>
        if truthy_string endDate
        then filter (fun r => str_le (date r) end_) filtered
        else filtered
    | None => filtered
    end in
  filtered.

Record NormalsSummary := {
  count : Z;
  meanOfMeanTempF : option float;
  minOfMinTempF : option float;
  maxOfMaxTempF : option float
}.

(** [xs.map(f).filter(v => v !== null)]. *)
Definition non_null (f : DailyNormal -> option float)
    (records : list DailyNormal) : list float :=
  flat_map (fun r => match f r with Some v => [v] | None => [] end) records.

Definition summarizeNormals (records : list DailyNormal) : NormalsSummary :=
  let temps := non_null meanTempF records in
  match temps with
  | [] =>
      {| count := 0;
         meanOfMeanTempF := None;
         minOfMinTempF := None;
         maxOfMaxTempF := None |}
  | _ =>
      {| count := Z.of_nat (List.length records);
         meanOfMeanTempF :=
           Some (fold_left PrimFloat.add temps zero
                 / number_of_Z (Z.of_nat (List.length temps)))%float;
         minOfMinTempF := Some (Math_min (non_null minTempF records));
         maxOfMaxTempF := Some (Math_max (non_null maxTempF records)) |}
  end.

End NormalsClient.

(** ** [pages/api/normals.ts] *)

Module NormalsApi.
Import JS NormalsClient.
Local Open Scope string_scope.

(** A value of [req.query]: absent, a string, or an array of strings (a
    repeated parameter). *)
Inductive QueryValue :=
| QUndefined
| QString (s : string)
| QArray (l : list string).

Record NextApiRequest := {
  q_station : QueryValue;
  q_startDate : QueryValue;
  q_endDate : QueryValue
}.

Record NormalsResponse := {
  r_station : string;
  r_startDate : option string;
  r_endDate : option string;
  r_records : list DailyNormal;
  r_summary : NormalsSummary
}.

Inductive Body :=
| Normals (r : NormalsResponse)
| ErrorBody (error : string).

(** What [res.status(code).json(body)] sends. *)
Record Sent := { status : Z; json : Body }.

(** [typeof v === "string" ? v : undefined]. *)
Definition string_or_undefined (v : QueryValue) : option string :=
  match v with
  | QString s => Some s
  | _ => None
  end.

(** The station, when the guard [!station || typeof station !== "string"]
    lets the request through: a non-empty string.  An absent value and the
    empty string are falsy; an array is truthy but not a string. *)
Definition accepted_station (v : QueryValue) : option string :=
  match v with
  | QString s => if s =? "" then None else Some s
  | QUndefined | QArray _ => None
  end.

(** [err.message || "Failed to fetch climate normals"]. *)
Definition message_or_fallback (err : Error) : string :=
  if message err =? "" then "Failed to fetch climate normals"
  else message err.

(** The handler, run to completion against [upstream]: the events in the
    order they happen, and the response sent. *)
Definition handler (upstream : Upstream) (req : NextApiRequest)
  : list Event * Sent :=
  match accepted_station (q_station req) with
  | None =>
      ([], {| status := 400;
              json := ErrorBody "Missing or invalid 'station' parameter" |})
  | Some station =>
      let startDate := string_or_undefined (q_startDate req) in
      let endDate := string_or_undefined (q_endDate req) in
      let '(events, settled) := fetchNormalsForStation upstream station in
      match settled with
      | Return all =>
          let filtered := filterNormalsByDate all startDate endDate in
          let summary := summarizeNormals filtered in
          (events,
           {| status := 200;
              json := Normals {| r_station := station;
                                 r_startDate := startDate;
                                 r_endDate := endDate;
                                 r_records := filtered;
                                 r_summary := summary |} |})
      | Throw err =>
          ((events ++ [ConsoleError err])%list,
           {| status := 500; json := ErrorBody (message_or_fallback err) |})
      end
  end.

End NormalsApi.

(** ** The forecast component: [fetchWeather] *)

Module Weather.
Import JS.
Local Open Scope string_scope.
Local Open Scope list_scope.

(** An element of [data.list]: [dt_txt], [main.temp] and [pop]. *)
Module Entry.
Record t := { dt_txt : string; main_temp : float; pop : float }.
End Entry.

(** An element of [results]. *)
Module Summary.
Record t := { date : string; avgTemp : string; pop : float }.
End Summary.

(** The object [daily]: its own properties, in the order of creation. *)
Definition Daily := list (string * list Entry.t).

(** The property names every object literal inherits from
    [Object.prototype]; each reads as a truthy value that has no [push]. *)
Definition Object_prototype_names : list string :=
  [ "constructor"; "__defineGetter__"; "__defineSetter__"; "hasOwnProperty";
    "__lookupGetter__"; "__lookupSetter__"; "isPrototypeOf";
    "propertyIsEnumerable"; "toString"; "valueOf"; "__proto__";
    "toLocaleString" ].

Definition inherited (key : string) : bool :=
  existsb (String.eqb key) Object_prototype_names.

Fixpoint own (daily : Daily) (key : string) : option (list Entry.t) :=
  match daily with
  | [] => None
  | (k, entries) :: rest => if k =? key then Some entries else own rest key
  end.

(** [daily[key].push(entry)] for an own property [key]. *)
Fixpoint push (daily : Daily) (key : string) (entry : Entry.t) : Daily :=
  match daily with
  | [] => []
  | (k, entries) :: rest =>
      if k =? key then (k, entries ++ [entry]) :: rest
      else (k, entries) :: push rest key entry
  end.

Definition push_not_a_function : Error :=
  mkError "TypeError" "daily[date].push is not a function".

(** [entry.dt_txt.split(" ")[0]]. *)
Definition date_of (entry : Entry.t) : string :=
  hd "" (split " " (Entry.dt_txt entry)).
Arguments date_of : simpl never.

(** The callback of [data.list.forEach]. *)
Definition group_entry (daily : Daily) (entry : Entry.t) : Completion Daily :=
  let date := date_of entry in
  match own daily date with
  | Some _ => Return (push daily date entry)
  | None =>
      if inherited date then Throw push_not_a_function
      else Return (push (daily ++ [(date, [])])%list date entry)
  end.

Fixpoint forEach (data_list : list Entry.t) (daily : Daily)
  : Completion Daily :=
  match data_list with
  | [] => Return daily
  | entry :: rest => bind (group_entry daily entry) (forEach rest)
  end.

(** A property name that is an array index: the canonical decimal form of
    an integer from 0 to 2^32 - 2. *)
Definition array_index (key : string) : option Z :=
  match key with
  | EmptyString => None
  | String c r =>
      let '(ds, rest) := span_digits key in
      let v := digits_value 0 ds in
      match rest with
      | EmptyString =>
          if ((c =? "0")%char && negb (r =? "")) then None
          else if (v <? 2 ^ 32 - 1)%Z then Some v else None
      | _ => None
      end
  end.

Fixpoint insert_index (k : Z * string) (l : list (Z * string))
  : list (Z * string) :=
  match l with
  | [] => [k]
  | k' :: r => if (fst k <=? fst k')%Z then k :: l else k' :: insert_index k r
  end.

(** [Object.keys]: the array indices in ascending order, then the other
    names in the order of creation. *)
Definition Object_keys (daily : Daily) : list string :=
  let names := map fst daily in
  let indices :=
    flat_map (fun k => match array_index k with
                       | Some i => [(i, k)]
                       | None => []
                       end) names in
  map snd (fold_right insert_index [] indices)
  ++ filter (fun k => match array_index k with
                      | Some _ => false
                      | None => true
                      end) names.

(** [keys.slice(0, days)] for an integral [days]: a negative end counts
    from the end of the array. *)
Definition slice0 (days : Z) (keys : list string) : list string :=
  if (days <? 0)%Z
  then firstn (Z.to_nat (Z.of_nat (List.length keys) + days)) keys
  else firstn (Z.to_nat days) keys.

(** [xs.reduce((acc, val) => acc + val, 0) / xs.length]. *)
Definition average (xs : list float) : float :=
  (fold_left (fun acc val => acc + val) xs zero
   / number_of_Z (Z.of_nat (List.length xs)))%float.

(** The callback of [selectedDates.map]. *)
Definition summarize_date (daily : Daily) (date : string) : Summary.t :=
  let entries := match own daily date with Some es => es | None => [] end in
  let temps := map Entry.main_temp entries in
  let pops := map Entry.pop entries in
  let avgTemp := average temps in
  let avgPop := average pops in
  {| Summary.date := date;
     Summary.avgTemp := toFixed 1 avgTemp;
     Summary.pop := Math_round (avgPop * number_of_Z 100)%float |}.

(** From [const daily = {}] to the value given to [setResults]. *)
Definition summary (data_list : list Entry.t) (days : Z)
  : Completion (list Summary.t) :=
  bind (forEach data_list [])
       (fun daily =>
          let selectedDates := slice0 days (Object_keys daily) in
          Return (map (summarize_date daily) selectedDates)).

(** What [await fetch(url)] and [await resp.json()] lead to: a rejected
    fetch, a response that is not [ok], a body that does not parse to an
    object with a well-formed [list], or the [list]. *)
Inductive FetchOutcome :=
| FetchRejected
| NotOk
| BadBody
| Data (data_list : list Entry.t).

(** The component state that [fetchWeather] writes. *)
Record State := {
  results : list Summary.t;
  error : option string
}.

Definition fetchWeather (API_KEY city : string) (days : Z)
    (fetched : FetchOutcome) (st : State) : State :=
  if API_KEY =? "" then
    {| results := results st;
       error := Some ("Missing API key. Please set "
                      ++ "NEXT_PUBLIC_OPENWEATHER_API_KEY in your .env.local"
                     )%string |}
  else if trim city =? "" then
    {| results := results st; error := Some "Please enter a city name" |}
  else
    match fetched with
    | NotOk => {| results := []; error := Some "Failed to fetch weather data" |}
    | Data data_list =>
        match summary data_list days with
        | Return s => {| results := s; error := None |}
        | Throw _ =>
            {| results := [];
               error := Some "Unexpected error fetching weather data" |}
        end
    | FetchRejected | BadBody =>
        {| results := [];
           error := Some "Unexpected error fetching weather data" |}
    end.

End Weather.

(** ** The order of numbers *)

Module NumberOrder.
Local Open Scope Z_scope.

(** The place of a spec float that is not NaN in the order of the
    comparisons: lexicographic on these triples. *)
Definition SFkey (a : spec_float) : Z * Z * Z :=
  match a with
  | S754_infinity true => (-2, 0, 0)
  | S754_finite true m e => (-1, - e, - Zpos m)
  | S754_zero _ => (0, 0, 0)
  | S754_finite false m e => (1, e, Zpos m)
  | S754_infinity false => (2, 0, 0)
  | S754_nan => (3, 0, 0)
  end.

Definition key_le (a b : Z * Z * Z) : Prop :=
  let '(a1, a2, a3) := a in
  let '(b1, b2, b3) := b in
  a1 < b1 \/ (a1 = b1 /\ (a2 < b2 \/ (a2 = b2 /\ a3 <= b3))).

Definition key_lt (a b : Z * Z * Z) : Prop :=
  let '(a1, a2, a3) := a in
  let '(b1, b2, b3) := b in
  a1 < b1 \/ (a1 = b1 /\ (a2 < b2 \/ (a2 = b2 /\ a3 < b3))).

(** Whether [Math.min] replaces [lowest] by [number]. *)
Definition lowers (number lowest : float) : bool :=
  match classify number, classify lowest with
  | NZero, PZero => true
  | _, _ => (number <? lowest)%float
  end.

(** Whether [Math.max] replaces [highest] by [number]. *)
Definition raises (number highest : float) : bool :=
  match classify number, classify highest with
  | PZero, NZero => true
  | _, _ => (highest <? number)%float
  end.

End NumberOrder.

(** ** Statements of the specification, and the inputs used below *)

Module Spec.
Import JS NormalsClient.
Local Open Scope string_scope.

(** The range filter in the words of the specification: the date is at
    least [start] if a start is given and at most [end] if an end is
    given. *)
Definition in_range (startDate endDate : option string) (r : DailyNormal)
  : bool :=
  match startDate with Some start => str_ge (date r) start | None => true end
  && match endDate with Some end_ => str_le (date r) end_ | None => true end.

(** The same, with a bound counting as given only when it is a non-empty
    string. *)
Definition in_given_range (startDate endDate : option string)
    (r : DailyNormal) : bool :=
  in_range (if truthy_string startDate then startDate else None)
           (if truthy_string endDate then endDate else None) r.

(** The upstream answered with a status of 400 or more. *)
Definition status_at_least_400 (o : HttpsOutcome) : Prop :=
  exists statusCode chunks,
    o = Response (Some statusCode) chunks /\ (400 <= statusCode)%Z.

(** The distinct elements of a list, each at its first occurrence. *)
Fixpoint distinct (l : list string) : list string :=
  match l with
  | [] => []
  | d :: r => d :: filter (fun x => negb (x =? d)) (distinct r)
  end.

(** The entries of a response that fall on date [d], in response order. *)
Definition entries_on (d : string) (data_list : list Weather.Entry.t)
  : list Weather.Entry.t :=
  filter (fun e => Weather.date_of e =? d) data_list.

(** The grouping of a response by date: one property per distinct date,
    created at the date's first occurrence, holding that date's entries. *)
Definition grouped (data_list : list Weather.Entry.t) : Weather.Daily :=
  map (fun d => (d, entries_on d data_list))
      (distinct (map Weather.date_of data_list)).

(** A property name that [Object.keys] moves to the front. *)
Definition is_index (k : string) : bool :=
  match Weather.array_index k with Some _ => true | None => false end.

(** Two entries, the later date first. *)
Definition later_first : list Weather.Entry.t :=
  [ {| Weather.Entry.dt_txt := "2024-01-02 00:00:00";
       Weather.Entry.main_temp := 70; Weather.Entry.pop := 0 |};
    {| Weather.Entry.dt_txt := "2024-01-01 21:00:00";
       Weather.Entry.main_temp := 72; Weather.Entry.pop := 0 |} ].

(** Entries on exactly three dates, several per date. *)
Definition three_dates : list Weather.Entry.t :=
  map (fun t => {| Weather.Entry.dt_txt := t;
                   Weather.Entry.main_temp := 70; Weather.Entry.pop := 0 |})
      [ "2024-01-01 18:00:00"; "2024-01-01 21:00:00"; "2024-01-02 00:00:00";
        "2024-01-02 03:00:00"; "2024-01-03 00:00:00"; "2024-01-03 03:00:00" ].

(** Three entries on one date at 70, 72 and 74 degrees, then two on the
    next date with probabilities 0.1 and 0.3. *)
Definition sample_forecast : list Weather.Entry.t :=
  [ {| Weather.Entry.dt_txt := "2024-01-01 15:00:00";
       Weather.Entry.main_temp := 70; Weather.Entry.pop := 0 |};
    {| Weather.Entry.dt_txt := "2024-01-01 18:00:00";
       Weather.Entry.main_temp := 72; Weather.Entry.pop := 0.5 |};
    {| Weather.Entry.dt_txt := "2024-01-01 21:00:00";
       Weather.Entry.main_temp := 74; Weather.Entry.pop := 1 |};
    {| Weather.Entry.dt_txt := "2024-01-02 00:00:00";
       Weather.Entry.main_temp := 60.5; Weather.Entry.pop := 0.1 |};
    {| Weather.Entry.dt_txt := "2024-01-02 03:00:00";
       Weather.Entry.main_temp := 61; Weather.Entry.pop := 0.3 |} ].

Definition sample_summaries : list Weather.Summary.t :=
  [ {| Weather.Summary.date := "2024-01-01";
       Weather.Summary.avgTemp := "72.0"; Weather.Summary.pop := 50 |};
    {| Weather.Summary.date := "2024-01-02";
       Weather.Summary.avgTemp := "60.8"; Weather.Summary.pop := 20 |} ].

(** Earliest first, dates compared as strings. *)
Definition earliest_first (dates : list string) : Prop :=
  StronglySorted (fun a b => str_le a b = true) dates.

(** A row whose four numeric cells are all null. *)
Definition null_row (station date : string) : DailyNormal :=
  {| station := station; date := date; meanTempF := None;
     minTempF := None; maxTempF := None; precipIn := None |}.

(** A row with a mean temperature and nothing else. *)
Definition mean_only_row : DailyNormal :=
  {| station := "USW00014739"; date := "20240101"; meanTempF := Some 50%float;
     minTempF := None; maxTempF := None; precipIn := None |}.

(** A row with a minimum and a maximum temperature but no mean. *)
Definition min_max_only_row : DailyNormal :=
  {| station := "USW00014739"; date := "20240101"; meanTempF := None;
     minTempF := Some 40%float; maxTempF := Some 60%float; precipIn := None |}.

(** The summary of the early return. *)
Definition no_summary : NormalsSummary :=
  {| count := 0; meanOfMeanTempF := None;
     minOfMinTempF := None; maxOfMaxTempF := None |}.

(** A line that [parseCsv] drops. *)
Definition blank (l : string) : bool := trim l =? "".

(** An upstream that answers every request with status 200 and a header
    line followed by two rows, sent in two chunks. *)
Definition two_rows : Upstream :=
  fun _ => Response (Some 200%Z)
             [ "DATE,MEAN,MAX,MIN,PRCP" ++ String "010" "20240101,50.5,60,";
               "40,0.1" ++ String "010" "20240102,abc,61,41," ].

(** An upstream that answers every request with status 404. *)
Definition not_found : Upstream :=
  fun _ => Response (Some 404%Z) ["NoSuchKey"].

(** A request for one station and a range that ends on 2024-01-01. *)
Definition sample_request : NormalsApi.NextApiRequest :=
  {| NormalsApi.q_station := NormalsApi.QString "USW00014739";
     NormalsApi.q_startDate := NormalsApi.QUndefined;
     NormalsApi.q_endDate := NormalsApi.QString "20240101" |}.

(** An upstream that refuses every connection. *)
Definition refusing : Upstream :=
  fun _ => RequestError (mkError "Error" "connect ECONNREFUSED").

End Spec.

(** ** Means: exact, and in binary64 *)

Module Means.
Import JS.
Import QArith_base Qround.
Local Open Scope string_scope.

(** *** The mean in the words of the specification *)

(** The exact value of a finite number [m * 2 ^ e], as a rational: an
    integer when [e] is not negative, and [m / 2 ^ (- e)] otherwise. *)
Definition exact_value (x : float) : Q :=
  match Prim2SF x with
  | S754_finite s m e =>
      if (0 <=? e)%Z then inject_Z (cond_Zopp s (Zpos m) * 2 ^ e)
      else Qmake (cond_Zopp s (Zpos m)) (2 ^ Z.to_pos (- e))
  | _ => 0%Q
  end.

(** The arithmetic mean: the sum divided by the number of values. *)
Definition arithmetic_mean (xs : list float) : Q :=
  Qdiv (fold_right Qplus 0%Q (map exact_value xs))
       (inject_Z (Z.of_nat (List.length xs))).

(** The nearest integer, the larger one on a tie. *)
Definition nearest_integer (q : Q) : Z := Qfloor (Qplus q (1 # 2)).

(** A rational rendered to one decimal place: the sign, then the nearest
    number of tenths of the magnitude. *)
Definition one_decimal (q : Q) : string :=
  if Qle_bool 0 q
  then toFixed_digits 1 (nearest_integer (Qmult (inject_Z 10) q))
  else "-" ++ toFixed_digits 1 (nearest_integer (Qmult (inject_Z 10) (Qopp q))).

(** The mean times 100, rounded to the nearest integer. *)
Definition percentage (xs : list float) : Z :=
  nearest_integer (Qmult (inject_Z 100) (arithmetic_mean xs)).

(** A finite number that is not a binary integer: [m * 2 ^ e] with [e]
    negative. *)
Definition has_fraction (y : float) : bool :=
  match Prim2SF y with
  | S754_finite _ _ e => (e <? 0)%Z
  | _ => false
  end.

Definition is_negative (y : float) : bool :=
  match Prim2SF y with
  | S754_finite s _ _ => s
  | _ => false
  end.

(** A number rounded to the nearest integer, the larger one on a tie; the
    result is a number again, a zero keeps the sign, and a number without
    a fraction is left as it is. *)
Definition rounded (y : float) : float :=
  if has_fraction y
  then let n := nearest_integer (exact_value y) in
       if (n =? 0)%Z then (if is_negative y then neg_zero else zero)
       else number_of_Z n
  else y.

(** *** The mean in binary64 *)

(** The sum of the first [k] values of [xs], added one at a time in the
    order of the list: [s 0 = 0] and [s (k + 1) = s k + x k], every
    addition rounded to the nearest binary64 number. *)
Fixpoint partial_sum (xs : list float) (k : nat) : float :=
  match k with
  | O => zero
  | S k' => (partial_sum xs k' + nth k' xs zero)%float
  end.

(** The last partial sum, divided by the number of values and rounded. *)
Definition float_mean (xs : list float) : float :=
  (partial_sum xs (List.length xs)
   / number_of_Z (Z.of_nat (List.length xs)))%float.

(** The summary of date [d] in a response: the date, the binary64 mean of
    the date's temperatures rendered by [toFixed(1)], and [Math.round] of
    the binary64 mean of the date's probabilities times 100. *)
Definition summary_of (data_list : list Weather.Entry.t) (d : string)
  : Weather.Summary.t :=
  let entries := Spec.entries_on d data_list in
  {| Weather.Summary.date := d;
     Weather.Summary.avgTemp :=
       toFixed 1 (float_mean (map Weather.Entry.main_temp entries));
     Weather.Summary.pop :=
       Math_round (float_mean (map Weather.Entry.pop entries)
                   * number_of_Z 100)%float |}.

(** *** Inputs *)

Definition reading (dt_txt : string) (temp pop : float) : Weather.Entry.t :=
  {| Weather.Entry.dt_txt := dt_txt;
     Weather.Entry.main_temp := temp; Weather.Entry.pop := pop |}.

(** One date with its eight three-hourly entries, each at 70.15 degrees. *)
Definition eight_readings : list Weather.Entry.t :=
  map (fun t => reading t 70.15 0)
      [ "2024-01-01 00:00:00"; "2024-01-01 03:00:00"; "2024-01-01 06:00:00";
        "2024-01-01 09:00:00"; "2024-01-01 12:00:00"; "2024-01-01 15:00:00";
        "2024-01-01 18:00:00"; "2024-01-01 21:00:00" ].

(** The same date with a single entry at 70.15 degrees. *)
Definition one_reading : list Weather.Entry.t :=
  [ reading "2024-01-01 00:00:00" 70.15 0 ].

(** One date with four entries, and the same four entries with the last
    two exchanged. *)
Definition four_pops : list Weather.Entry.t :=
  [ reading "2024-01-01 00:00:00" 50 0.02;
    reading "2024-01-01 03:00:00" 50 0.02;
    reading "2024-01-01 06:00:00" 50 0.48;
    reading "2024-01-01 09:00:00" 50 0.38 ].

Definition four_pops_exchanged : list Weather.Entry.t :=
  [ reading "2024-01-01 00:00:00" 50 0.02;
    reading "2024-01-01 03:00:00" 50 0.02;
    reading "2024-01-01 09:00:00" 50 0.38;
    reading "2024-01-01 06:00:00" 50 0.48 ].

Definition one_summary (avgTemp : string) (pop : float)
  : list Weather.Summary.t :=
  [ {| Weather.Summary.date := "2024-01-01";
       Weather.Summary.avgTemp := avgTemp; Weather.Summary.pop := pop |} ].

End Means.

(** ** Notions used to state further properties *)

Module Derived.
Import JS NormalsClient.
Local Open Scope string_scope.

(** [Array.prototype.join] on strings. *)
Fixpoint join (sep : string) (ls : list string) : string :=
  match ls with
  | [] => ""
  | [l] => l
  | l :: r => l ++ sep ++ join sep r
  end.

(** No code unit of [s] satisfies [p]. *)
Fixpoint free_of (p : ascii -> bool) (s : string) : bool :=
  match s with
  | EmptyString => true
  | String c r => negb (p c) && free_of p r
  end.

(** A code unit that ends a line: LF or CR. *)
Definition is_line_end (c : ascii) : bool :=
  ((c =? "010") || (c =? "013"))%char.

(** The lines [parseCsv] keeps: the non-blank ones. *)
Definition kept_lines (csvText : string) : list string :=
  filter (fun l => negb (trim l =? "")) (split_lines csvText).

(** Whether [parseCsv] takes the first kept line for a header. *)
Definition has_header (lines : list string) : bool :=
  match lines with
  | first :: _ => includes (toLowerCase first) "date"
  | [] => false
  end.

(** A numeric field of a record: null, or a number that is not NaN. *)
Definition never_nan (v : option float) : Prop :=
  match v with
  | Some x => is_nan x = false
  | None => True
  end.

(** The LF and CR LF separators. *)
Definition LF : string := String "010" "".
Definition CRLF : string := String "013" (String "010" "").

(** A body of a header and two rows, with extra columns in the rows. *)
Definition wide_rows : string :=
  join LF [ "STATION,DATE,x"; "20240101,50.5,60,40,0.1,extra,more";
            "20240102,,61.5,abc" ].

End Derived.

(** ** Further inputs *)

Module Inputs.
Import JS NormalsClient NormalsApi.
Local Open Scope string_scope.

(** Three records on three consecutive days. *)
Definition day (d : string) (mean lo hi : float) : DailyNormal :=
  {| station := "USW00014739"; date := d; meanTempF := Some mean;
     minTempF := Some lo; maxTempF := Some hi; precipIn := None |}.

Definition three_days : list DailyNormal :=
  [ day "20240101" 50 40 60; day "20240102" 52 41 63;
    day "20240103" 49 38 58 ].

(** An upstream that answers every request with status 200 and no body. *)
Definition empty_body : Upstream :=
  fun _ => Response (Some 200%Z) [].

(** An upstream that answers every request with status 503. *)
Definition unavailable : Upstream :=
  fun _ => Response (Some 503%Z) ["Service Unavailable"].

(** A request for a station with both bounds given. *)
Definition january_request : NextApiRequest :=
  {| q_station := QString "USW00014739";
     q_startDate := QString "20240101";
     q_endDate := QString "20240131" |}.

End Inputs.

(** ** Further forecast inputs *)

Module ForecastInputs.
Import JS.
Local Open Scope string_scope.

Definition entry (dt_txt : string) (temp pop : float) : Weather.Entry.t :=
  {| Weather.Entry.dt_txt := dt_txt;
     Weather.Entry.main_temp := temp; Weather.Entry.pop := pop |}.

(** A response with an entry whose date is a name every object inherits. *)
Definition with_inherited_name : list Weather.Entry.t :=
  [ entry "2024-01-01 00:00:00" 70 0; entry "constructor 03:00:00" 71 0 ].

(** The state before any request. *)
Definition initial : Weather.State :=
  {| Weather.results := []; Weather.error := None |}.

End ForecastInputs.

(** ** [pages/index.tsx]: [handleSubmit] *)

Module HomePage.
Import JS NormalsClient NormalsApi.
Local Open Scope string_scope.

(** A message of the conversation.  The payload of a data message is what
    [res.json()] gave, cast to [NormalsResponse] without a check. *)
Inductive ChatMessage :=
| UserMessage (text : string)
| SystemMessage (text : string)
| DataMessage (payload : Body).

(** The state of the page. *)
Record State := {
  input : string;
  station : string;
  startDate : string;
  endDate : string;
  messages : list ChatMessage;
  loading : bool;
  error : option string
}.

(** What [await fetch(...)] leads to: a rejection, or a response with its
    status and with what [res.json()] settles to, the body parsed or the
    error of the parse.  The bodies are those of the endpoint, a
    [NormalsResponse] or an object with an [error] text; a response that is
    not [ok] is taken up with any JSON body in [FailedResponse] below. *)
Inductive ApiOutcome :=
| FetchFailed (err : Error)
| Responded (status : Z) (body : Completion Body).

(** [res.ok]: the status is in the range 200 to 299. *)
Definition ok (status : Z) : bool :=
  ((200 <=? status) && (status <=? 299))%Z.

(** [errJson.error || `HTTP ${res.status}`], where [errJson] is the body
    of the endpoint parsed, or [{}] when it does not parse. *)
Definition error_text (status : Z) (body : Completion Body) : string :=
  match body with
  | Return (ErrorBody text) =>
      if text =? "" then "HTTP " ++ status_text status else text
  | Return (Normals _) | Throw _ => "HTTP " ++ status_text status
  end.

(** [err.message || "Unknown error"]. *)
Definition message_or_unknown (err : Error) : string :=
  if message err =? "" then "Unknown error" else message err.

(** What the [try] block of [handleSubmit] ends with: the data message to
    append, or the error caught. *)
Definition attempt (outcome : ApiOutcome) : Completion ChatMessage :=
  match outcome with
  | FetchFailed err => Throw err
  | Responded status body =>
      if ok status
      then bind body (fun json => Return (DataMessage json))
      else Throw (mkError "Error" (error_text status body))
  end.

(** [handleSubmit], run to completion: the state after all its updates. *)
Definition handleSubmit (outcome : ApiOutcome) (st : State) : State :=
  let userMessage := UserMessage (input st) in
  let messages := (messages st ++ [userMessage])%list in
  match attempt outcome with
  | Return dataMessage =>
      {| input := input st; station := station st;
         startDate := startDate st; endDate := endDate st;
         messages := (messages ++ [dataMessage])%list;
         loading := false; error := None |}
  | Throw err =>
      {| input := input st; station := station st;
         startDate := startDate st; endDate := endDate st;
         messages := messages;
         loading := false; error := Some (message_or_unknown err) |}
  end.

(** *** The page and the endpoint together *)

(** The query the endpoint receives from the page: [URLSearchParams] sends
    each of the three controls once, so each value is a string, the empty
    string for an empty control. *)
Definition request_of (st : State) : NextApiRequest :=
  {| q_station := QString (station st);
     q_startDate := QString (startDate st);
     q_endDate := QString (endDate st) |}.

(** A number after [JSON.stringify] and [JSON.parse]: NaN and the
    infinities are written as [null], and [-0] as [0]. *)
Definition json_number (x : float) : option float :=
  match classify x with
  | NaN | PInf | NInf => None
  | NZero => Some zero
  | _ => Some x
  end.

Definition json_field (v : option float) : option float :=
  match v with
  | Some x => json_number x
  | None => None
  end.

Definition json_record (r : DailyNormal) : DailyNormal :=
  {| NormalsClient.station := NormalsClient.station r;
     date := date r;
     meanTempF := json_field (meanTempF r);
     minTempF := json_field (minTempF r);
     maxTempF := json_field (maxTempF r);
     precipIn := json_field (precipIn r) |}.

Definition json_summary (s : NormalsSummary) : NormalsSummary :=
  {| count := count s;
     meanOfMeanTempF := json_field (meanOfMeanTempF s);
     minOfMinTempF := json_field (minOfMinTempF s);
     maxOfMaxTempF := json_field (maxOfMaxTempF s) |}.

(** A body after [res.json(body)] on the server and [res.json()] on the
    page. *)
Definition json_body (b : Body) : Body :=
  match b with
  | ErrorBody text => ErrorBody text
  | Normals r =>
      Normals {| r_station := r_station r;
                 r_startDate := r_startDate r;
                 r_endDate := r_endDate r;
                 r_records := map json_record (r_records r);
                 r_summary := json_summary (r_summary r) |}
  end.

(** What the page gets for what the handler sent. *)
Definition outcome_of (sent : Sent) : ApiOutcome :=
  Responded (status sent) (Return (json_body (json sent))).

(** A submit of the page served by the handler against [upstream]. *)
Definition submit (upstream : Upstream) (st : State) : State :=
  handleSubmit (outcome_of (snd (handler upstream (request_of st)))) st.

(** The page as it starts, with the default station and range. *)
Definition start : State :=
  {| input := "Compare January 1991 normals for station USW00014820";
     station := "USW00014820";
     startDate := "19910101";
     endDate := "19910131";
     messages := [];
     loading := false;
     error := None |}.

End HomePage.

(** ** [pages/index.tsx]: a response that is not [ok], whatever its body *)

Module FailedResponse.
Import JS NormalsClient NormalsApi HomePage.
Local Open Scope string_scope.
Local Open Scope Z_scope.

(** *** [Number::toString] with radix 10 *)

(** The number of decimal digits of a positive integer. *)
Definition decimal_length (n : Z) : Z :=
  Z.of_nat (String.length (digits_of_Z n)).

(** The fraction [num / den] divided by [10 ^ e10], as a fraction. *)
Definition scaled (num den e10 : Z) : Z * Z :=
  if 0 <=? e10 then (num, den * 10 ^ e10) else (num * 10 ^ (- e10), den).

(** The [n] with [10 ^ (n - 1) <= num / den < 10 ^ n]. *)
Definition decimal_exponent (num den : Z) : Z :=
  let n0 := decimal_length num - decimal_length den in
  let '(a, b) := scaled num den n0 in
  if b <=? a then n0 + 1 else n0.

(** Of the two decimals [s * 10 ^ (n - k)] next to [num / den], one that
    rounds to [x]: the closer one when both do, the even one on a tie. *)
Definition candidate (x : float) (num den n k : Z) : option Z :=
  let e10 := n - k in
  let '(a, b) := scaled num den e10 in
  let lo := a / b in
  let hi := lo + 1 in
  let ok v := (number_of_decimal false v e10 =? x)%float in
  match ok lo, ok hi with
  | true, true =>
      Some (if 2 * (a - lo * b) <? b then lo
            else if b <? 2 * (a - lo * b) then hi
            else if Z.even lo then lo else hi)
  | true, false => Some lo
  | false, true => Some hi
  | false, false => None
  end.

(** The decimal [s * 10 ^ e10] with the fewest digits that rounds to [x]:
    [k] digits are tried from [k] upwards. *)
Fixpoint shortest (x : float) (num den n k : Z) (fuel : nat) : Z * Z :=
  match fuel with
  | O => (num / den, 0)
  | S fuel' =>
      match candidate x num den n k with
      | Some s => (s, n - k)
      | None => shortest x num den n (k + 1) fuel'
      end
  end.

(** A positive finite [x = m * 2 ^ e]: its shortest digits [ds], [k] of
    them, and the [n] with [x] about [0.ds * 10 ^ n], laid out as
    [Number::toString] does. *)
Definition positive_toString (x : float) (m : positive) (e : Z) : string :=
  let num := if 0 <=? e then Zpos m * 2 ^ e else Zpos m in
  let den := if 0 <=? e then 1 else 2 ^ (- e) in
  let '(s, e10) := shortest x num den (decimal_exponent num den) 1 17 in
  let all := digits_of_Z s in
  let ds := strip_trailing_zeros all in
  let k := Z.of_nat (String.length ds) in
  let n := e10 + Z.of_nat (String.length all) in
  if (k <=? n) && (n <=? 21) then ds ++ zeros (Z.to_nat (n - k))
  else if (0 <? n) && (n <=? 21)
  then substring 0 (Z.to_nat n) ds ++ "."
       ++ substring (Z.to_nat n) (Z.to_nat (k - n)) ds
  else if (-6 <? n) && (n <=? 0)
  then "0." ++ zeros (Z.to_nat (- n)) ++ ds
  else
    let exponent :=
      (if 0 <=? n - 1 then "+" else "-") ++ digits_of_Z (Z.abs (n - 1)) in
    if k =? 1 then ds ++ "e" ++ exponent
    else substring 0 1 ds ++ "." ++ substring 1 (Z.to_nat (k - 1)) ds
         ++ "e" ++ exponent.

Definition Number_toString (x : float) : string :=
  match Prim2SF x with
  | S754_nan => "NaN"
  | S754_zero _ => "0"
  | S754_infinity s => if s then "-Infinity" else "Infinity"
  | S754_finite s m e =>
      (if s then "-" else "") ++ positive_toString (abs x) m e
  end.

(** *** The values that [JSON.parse] gives *)

Inductive Json :=
| JNull
| JBool (b : bool)
| JNumber (x : float)
| JString (s : string)
| JArray (items : list Json)
| JObject (members : list (string * Json)).

(** The value of the own property [key] of an object parsed from
    [members]: of several members with one name, the last. *)
Fixpoint get (key : string) (members : list (string * Json))
  : option Json :=
  match members with
  | [] => None
  | (k, v) :: rest =>
      match get key rest with
      | Some v' => Some v'
      | None => if (k =? key)%string then Some v else None
      end
  end.

(** The error of reading a property of [null], in V8's wording. *)
Definition null_error : Error :=
  mkError "TypeError" "Cannot read properties of null (reading 'error')".

(** The error of [ToPrimitive] when neither [toString] nor [valueOf]
    gives a primitive, in V8's wording. *)
Definition not_primitive : Error :=
  mkError "TypeError" "Cannot convert object to primitive value".

(** [errJson.error]: reading a property of [null] throws; a number, a
    string, a boolean and an array have no property of this name, nor
    have their prototypes; an object has it when it is its own. *)
Definition read_error (errJson : Json) : Completion (option Json) :=
  match errJson with
  | JNull => Throw null_error
  | JObject members => Return (get "error" members)
  | JBool _ | JNumber _ | JString _ | JArray _ => Return None
  end.

(** [ToBoolean]. *)
Definition truthy (v : Json) : bool :=
  match v with
  | JNull => false
  | JBool b => b
  | JNumber x =>
      match classify x with
      | PZero | NZero | NaN => false
      | _ => true
      end
  | JString s => negb (s =? "")%string
  | JArray _ | JObject _ => true
  end.

(** [ToString].  An array is joined with commas, an element that is
    [null] giving the empty string.  An object goes through
    [Object.prototype.toString], unless it has a [toString] of its own:
    that one is not a function, and [valueOf] gives no primitive. *)
Fixpoint ToString (v : Json) : Completion string :=
  match v with
  | JNull => Return "null"
  | JBool b => Return (if b then "true" else "false")
  | JNumber x => Return (Number_toString x)
  | JString s => Return s
  | JArray items =>
      (fix join (l : list Json) : Completion string :=
         match l with
         | [] => Return ""
         | i :: r =>
             bind (match i with JNull => Return "" | _ => ToString i end)
                  (fun first =>
                     match r with
                     | [] => Return first
                     | _ => bind (join r)
                              (fun others => Return (first ++ "," ++ others))
                     end)
         end) items
  | JObject members =>
      match get "toString" members with
      | Some _ => Throw not_primitive
      | None => Return "[object Object]"
      end
  end.

(** What the [try] block throws for a response that is not [ok]:
    [errJson] is the body parsed, or [{}] when it does not parse. *)
Definition thrown (status : Z) (parsed : Completion Json) : Error :=
  let errJson := match parsed with Return j => j | Throw _ => JObject [] end in
  let fallback := "HTTP " ++ status_text status in
  match read_error errJson with
  | Throw e => e
  | Return error =>
      let text :=
        match error with
        | Some v => if truthy v then ToString v else Return fallback
        | None => Return fallback
        end in
      match text with
      | Return message => mkError "Error" message
      | Throw e => e
      end
  end.

(** What [setError] receives for a response that is not [ok]. *)
Definition shown (status : Z) (parsed : Completion Json) : string :=
  message_or_unknown (thrown status parsed).

(** *** The endpoint's bodies as JSON values *)

Definition json_of_number (v : option float) : Json :=
  match json_field v with
  | Some x => JNumber x
  | None => JNull
  end.

Definition json_of_record (r : DailyNormal) : Json :=
  JObject [ ("station", JString (NormalsClient.station r));
            ("date", JString (date r));
            ("meanTempF", json_of_number (meanTempF r));
            ("maxTempF", json_of_number (maxTempF r));
            ("minTempF", json_of_number (minTempF r));
            ("precipIn", json_of_number (precipIn r)) ].

Definition json_of_summary (s : NormalsSummary) : Json :=
  JObject [ ("count", JNumber (number_of_Z (count s)));
            ("meanOfMeanTempF", json_of_number (meanOfMeanTempF s));
            ("minOfMinTempF", json_of_number (minOfMinTempF s));
            ("maxOfMaxTempF", json_of_number (maxOfMaxTempF s)) ].

(** A property whose value is [undefined] is not written. *)
Definition optional_member (key : string) (v : option string)
  : list (string * Json) :=
  match v with
  | Some s => [(key, JString s)]
  | None => []
  end.

Definition json_of_body (b : Body) : Json :=
  match b with
  | ErrorBody text => JObject [("error", JString text)]
  | Normals r =>
      JObject ([("station", JString (r_station r))]
               ++ optional_member "startDate" (r_startDate r)
               ++ optional_member "endDate" (r_endDate r)
               ++ [("records", JArray (map json_of_record (r_records r)));
                   ("summary", json_of_summary (r_summary r))])%list
  end.

(** What the page parses of a body of the endpoint. *)
Definition parsed_body (body : Completion Body) : Completion Json :=
  bind body (fun b => Return (json_of_body b)).

End FailedResponse.

(** ** Further page inputs *)

Module PageInputs.
Import JS NormalsClient NormalsApi HomePage.
Local Open Scope string_scope.
Local Open Scope Z_scope.

(** The page with a station and both date controls emptied. *)
Definition whole_record : State :=
  {| input := "Everything for station USW00014739";
     station := "USW00014739";
     startDate := "";
     endDate := "";
     messages := [SystemMessage "ready"];
     loading := false;
     error := None |}.

(** A number is finite and prints in fixed notation: in the form
    [m * 2 ^ e] that [toFixed] reads, the exponent is negative or the
    magnitude is below [10 ^ 21]. *)
Definition prints_fixed (x : float) : Prop :=
  match Prim2SF x with
  | S754_finite _ m e => e < 0 \/ Zpos m * 2 ^ e < 10 ^ 21
  | S754_zero _ => True
  | S754_infinity _ | S754_nan => False
  end.

(** A decimal digit, and a string made of decimal digits only. *)
Definition is_digit (c : ascii) : bool :=
  (Nat.leb 48 (nat_of_ascii c) && Nat.leb (nat_of_ascii c) 57)%bool.

Definition digits_only (s : string) : bool :=
  Derived.free_of (fun c => negb (is_digit c)) s.

(** An upstream that sends the two rows of [two_rows] in five chunks. *)
Definition two_rows_in_pieces : Upstream :=
  fun _ => Response (Some 200)
             [ "DATE,MEAN,MAX,"; "MIN,PRCP" ++ String "010" "2024";
               "0101,50.5,60,40,0.1"; String "010" "20240102,abc,";
               "61,41," ].

End PageInputs.

(* ================================================================== *)
(** * Part II: properties *)
(* ================================================================== *)

Import JS NormalsClient NormalsApi NumberOrder Spec.
Local Open Scope string_scope.

(** ** Numbers *)

Section Numbers.
Local Open Scope Z_scope.

(** [round_half_up m k] is within one half of [m / 2 ^ k], and a half
    away only from below. *)
Lemma round_half_up_nearest (m k : Z) :
  0 <= k ->
  let n := round_half_up m k in
  2 * (n * 2 ^ k - m) <= 2 ^ k /\ 2 * (m - n * 2 ^ k) < 2 ^ k.
Proof.
  intros Hk n. subst n. unfold round_half_up.
  assert (Hp : 0 < 2 ^ k) by (apply Z.pow_pos_nonneg; lia).
  replace (2 ^ (k + 1)) with (2 * 2 ^ k) by (rewrite Z.pow_add_r by lia; lia).
  pose proof (Z.mul_div_le (2 * m + 2 ^ k) (2 * 2 ^ k)) as H1.
  pose proof (Z.mul_succ_div_gt (2 * m + 2 ^ k) (2 * 2 ^ k)) as H2.
  nia.
Qed.

(** The integer that [toFixed] prints is the value times [10 ^ f], exactly
    when that is an integer, and otherwise the nearest integer, the larger
    one on a tie. *)
Lemma toFixed_n_nearest (f : nat) (m : positive) (e : Z) :
  let n := toFixed_n f m e in
  let scaled := Zpos m * 10 ^ Z.of_nat f in
  if 0 <=? e then n = scaled * 2 ^ e
  else 2 * (n * 2 ^ (- e) - scaled) <= 2 ^ (- e)
       /\ 2 * (scaled - n * 2 ^ (- e)) < 2 ^ (- e).
Proof.
  unfold toFixed_n. destruct (0 <=? e) eqn:E; [reflexivity|].
  apply round_half_up_nearest. apply Z.leb_gt in E. lia.
Qed.

Lemma substring_split (s : string) (i : nat) :
  (i <= String.length s)%nat ->
  (substring 0 i s ++ substring i (String.length s - i) s)%string = s.
Proof.
  revert i. induction s as [|c s IH]; intros [|i] Hi; simpl in *; try lia.
  - reflexivity.
  - f_equal. clear. induction s; simpl; congruence.
  - f_equal. apply IH. lia.
Qed.

Lemma substring_length (s : string) (i j : nat) :
  (i + j <= String.length s)%nat -> String.length (substring i j s) = j.
Proof.
  revert i j. induction s as [|c s IH]; intros [|i] [|j] Hi; simpl in *;
    try lia; try reflexivity.
  - f_equal. apply (IH 0%nat). lia.
  - apply IH. lia.
  - apply IH. lia.
Qed.

Lemma length_append (a b : string) :
  String.length (a ++ b) = (String.length a + String.length b)%nat.
Proof.
  induction a as [|c a IH]; simpl; congruence.
Qed.

Lemma zeros_length (k : nat) : String.length (zeros k) = k.
Proof.
  induction k as [|k IH]; simpl; congruence.
Qed.

(** With [f] at least one, [toFixed] prints at least one digit, a point,
    and exactly [f] digits. *)
Lemma toFixed_digits_point (f : nat) (n : Z) :
  exists a b,
    toFixed_digits (S f) n = (a ++ "." ++ b)%string
    /\ (1 <= String.length a)%nat
    /\ String.length b = S f.
Proof.
  unfold toFixed_digits.
  set (m := if (String.length (digits_of_Z n) <=? S f)%nat
            then (zeros (S f + 1 - String.length (digits_of_Z n))
                  ++ digits_of_Z n)%string
            else digits_of_Z n).
  assert (Hk : (S f + 1 <= String.length m)%nat).
  { subst m. destruct (Nat.leb_spec (String.length (digits_of_Z n)) (S f)).
    - rewrite length_append, zeros_length. lia.
    - lia. }
  exists (substring 0 (String.length m - S f) m),
         (substring (String.length m - S f) (S f) m).
  split; [reflexivity|].
  rewrite !substring_length by lia. lia.
Qed.

(** A finite value below [10 ^ 21] is printed with its sign, at least one
    digit, a point, and exactly [f] digits. *)
Lemma toFixed_point (f : nat) (x : float) (s : bool) (m : positive) (e : Z) :
  Prim2SF x = S754_finite s m e ->
  e < 0 \/ Zpos m * 2 ^ e < 10 ^ 21 ->
  exists a b,
    toFixed (S f) x = ((if s then "-" else "") ++ a ++ "." ++ b)%string
    /\ (1 <= String.length a)%nat
    /\ String.length b = S f.
Proof.
  intros Hx Hsmall. unfold toFixed. rewrite Hx.
  replace ((0 <=? e) && (10 ^ 21 <=? Zpos m * 2 ^ e)) with false.
  - destruct (toFixed_digits_point f (toFixed_n (S f) m e))
      as (a & b & E & Ha & Hb).
    exists a, b. now rewrite E.
  - symmetry. apply andb_false_iff.
    destruct Hsmall as [He|Hv]; [left; apply Z.leb_gt|right; apply Z.leb_gt];
      assumption.
Qed.

(** [Math.round] of a finite value [v / 2 ^ k] that has a fractional
    exponent is the Number of the integer nearest to it, the larger one on
    a tie; a value with a non-negative exponent is integral and is
    returned as it is. *)
Lemma Math_round_nearest (x : float) (s : bool) (m : positive) (e : Z) :
  Prim2SF x = S754_finite s m e ->
  if 0 <=? e then Math_round x = x
  else
    let v := cond_Zopp s (Zpos m) in
    let n := round_half_up v (- e) in
    Math_round x
    = (if n =? 0 then (if s then neg_zero else zero) else number_of_Z n)
    /\ 2 * (n * 2 ^ (- e) - v) <= 2 ^ (- e)
    /\ 2 * (v - n * 2 ^ (- e)) < 2 ^ (- e).
Proof.
  intro Hx. unfold Math_round. rewrite Hx.
  destruct (0 <=? e) eqn:E; [reflexivity|].
  split; [reflexivity|].
  apply round_half_up_nearest. apply Z.leb_gt in E. lia.
Qed.

(** Comparisons of numbers, through their specification. *)

Ltac split_compare :=
  repeat match goal with
         | |- context [Z.compare ?x ?y] => destruct (Z.compare_spec x y)
         | |- context [Pos.compare_cont Eq ?x ?y] =>
             change (Pos.compare_cont Eq x y) with (Pos.compare x y);
             destruct (Pos.compare_spec x y)
         end.

Lemma SFleb_key (a b : spec_float) :
  a <> S754_nan -> b <> S754_nan ->
  (SFleb a b = true <-> key_le (SFkey a) (SFkey b)).
Proof.
  intros Ha Hb. unfold SFleb, SFcompare.
  destruct a as [sa|sa| |sa ma ea], b as [sb|sb| |sb mb eb];
    try contradiction;
    try destruct sa; try destruct sb; simpl; split_compare; simpl;
    split; intro Hcmp; try discriminate Hcmp; try reflexivity; try lia.
Qed.

Lemma SFltb_key (a b : spec_float) :
  a <> S754_nan -> b <> S754_nan ->
  (SFltb a b = true <-> key_lt (SFkey a) (SFkey b)).
Proof.
  intros Ha Hb. unfold SFltb, SFcompare.
  destruct a as [sa|sa| |sa ma ea], b as [sb|sb| |sb mb eb];
    try contradiction;
    try destruct sa; try destruct sb; simpl; split_compare; simpl;
    split; intro Hcmp; try discriminate Hcmp; try reflexivity; try lia.
Qed.

Lemma is_nan_spec (x : float) :
  is_nan x = false <-> Prim2SF x <> S754_nan.
Proof.
  unfold is_nan. rewrite FloatAxioms.eqb_spec, negb_false_iff.
  unfold SFeqb, SFcompare.
  destruct (Prim2SF x) as [s|s| |s m e]; try destruct s; simpl;
    rewrite ?Z.compare_refl, ?Pos.compare_cont_refl; simpl;
    split; intro Hnan; congruence.
Qed.

Lemma leb_trans (x y z : float) :
  (x <=? y)%float = true -> (y <=? z)%float = true -> (x <=? z)%float = true.
Proof.
  rewrite !leb_spec. intros Hxy Hyz.
  assert (Hx : Prim2SF x <> S754_nan)
    by (intro E; rewrite E in Hxy; discriminate Hxy).
  assert (Hy : Prim2SF y <> S754_nan)
    by (intro E; rewrite E in Hyz; discriminate Hyz).
  assert (Hz : Prim2SF z <> S754_nan)
    by (intro E; rewrite E in Hyz; destruct (Prim2SF y); discriminate Hyz).
  rewrite SFleb_key in * by assumption.
  destruct (SFkey (Prim2SF x)) as [[x1 x2] x3],
           (SFkey (Prim2SF y)) as [[y1 y2] y3],
           (SFkey (Prim2SF z)) as [[z1 z2] z3].
  unfold key_le in *. lia.
Qed.

Lemma ltb_leb (x y : float) :
  (x <? y)%float = true -> (x <=? y)%float = true.
Proof.
  rewrite ltb_spec, leb_spec. intro Hxy.
  assert (Hx : Prim2SF x <> S754_nan)
    by (intro E; rewrite E in Hxy; discriminate Hxy).
  assert (Hy : Prim2SF y <> S754_nan)
    by (intro E; rewrite E in Hxy; destruct (Prim2SF x); discriminate Hxy).
  rewrite SFltb_key in Hxy by assumption. rewrite SFleb_key by assumption.
  destruct (SFkey (Prim2SF x)) as [[x1 x2] x3],
           (SFkey (Prim2SF y)) as [[y1 y2] y3].
  unfold key_le, key_lt in *. lia.
Qed.

Lemma not_ltb_leb (x y : float) :
  is_nan x = false -> is_nan y = false ->
  (x <? y)%float = false -> (y <=? x)%float = true.
Proof.
  rewrite !is_nan_spec, ltb_spec, leb_spec. intros Hx Hy Hxy.
  rewrite SFleb_key by assumption.
  assert (Hn : ~ key_lt (SFkey (Prim2SF x)) (SFkey (Prim2SF y))).
  { rewrite <- SFltb_key by assumption. congruence. }
  destruct (SFkey (Prim2SF x)) as [[x1 x2] x3],
           (SFkey (Prim2SF y)) as [[y1 y2] y3].
  unfold key_le, key_lt in *. lia.
Qed.

Lemma leb_refl (x : float) : is_nan x = false -> (x <=? x)%float = true.
Proof.
  rewrite is_nan_spec, leb_spec. intro Hx.
  rewrite SFleb_key by assumption.
  destruct (SFkey (Prim2SF x)) as [[x1 x2] x3]. unfold key_le. lia.
Qed.

Lemma zeros_leb (x y : float) :
  classify x = NZero -> classify y = PZero -> (x <=? y)%float = true.
Proof.
  rewrite !classify_spec, leb_spec.
  unfold SF64classify, SFclassify.
  destruct (Prim2SF x) as [[]|[]| |[] m e], (Prim2SF y) as [[]|[]| |[] m' e'];
    repeat match goal with
           | |- context [if ?c then _ else _] => destruct c
           end; try discriminate; reflexivity.
Qed.

Lemma below_infinity (x : float) :
  is_nan x = false -> (x <? infinity)%float = false -> x = infinity.
Proof.
  rewrite is_nan_spec, ltb_spec. intros Hx Hlt.
  apply Prim2SF_inj.
  change (Prim2SF infinity) with (S754_infinity false) in *.
  destruct (Prim2SF x) as [s|[]| |[] m e]; try discriminate Hlt;
    [reflexivity|contradiction].
Qed.

Lemma above_neg_infinity (x : float) :
  is_nan x = false -> (neg_infinity <? x)%float = false -> x = neg_infinity.
Proof.
  rewrite is_nan_spec, ltb_spec. intros Hx Hlt.
  apply Prim2SF_inj.
  change (Prim2SF neg_infinity) with (S754_infinity true) in *.
  destruct (Prim2SF x) as [s|[]| |[] m e]; try discriminate Hlt;
    [reflexivity|contradiction].
Qed.

Lemma Math_min_from_cons (lowest number : float) (rest : list float) :
  Math_min_from lowest (number :: rest)
  = if is_nan number then nan
    else if lowers number lowest then Math_min_from number rest
         else Math_min_from lowest rest.
Proof.
  unfold lowers. simpl. destruct (is_nan number); [reflexivity|].
  destruct (classify number), (classify lowest); reflexivity.
Qed.

Lemma lowers_leb (number lowest : float) :
  is_nan number = false -> is_nan lowest = false ->
  if lowers number lowest then (number <=? lowest)%float = true
  else (lowest <=? number)%float = true.
Proof.
  intros Hn Hl. unfold lowers.
  destruct (classify number) eqn:Cn, (classify lowest) eqn:Cl;
    try (destruct (number <? lowest)%float eqn:E;
         [now apply ltb_leb|now apply not_ltb_leb]).
  now apply zeros_leb.
Qed.

Lemma Math_min_from_least (values : list float) :
  forall lowest,
    is_nan lowest = false ->
    Forall (fun v => is_nan v = false) values ->
    In (Math_min_from lowest values) (lowest :: values)
    /\ (Math_min_from lowest values <=? lowest)%float = true
    /\ Forall (fun v => (Math_min_from lowest values <=? v)%float = true)
         values.
Proof.
  induction values as [|number rest IH]; intros lowest Hl Hv.
  - simpl. repeat split; [now left|now apply leb_refl|constructor].
  - inversion Hv as [|? ? Hn Hrest]; subst.
    rewrite Math_min_from_cons, Hn.
    pose proof (@lowers_leb number lowest Hn Hl) as Hcmp.
    destruct (lowers number lowest).
    + destruct (IH number Hn Hrest) as (Hin & Hle & Hall).
      repeat split.
      * now right.
      * exact (@leb_trans _ _ _ Hle Hcmp).
      * now constructor.
    + destruct (IH lowest Hl Hrest) as (Hin & Hle & Hall).
      repeat split.
      * destruct Hin as [Hin|Hin]; [now left|now right; right].
      * assumption.
      * constructor; [exact (@leb_trans _ _ _ Hle Hcmp)|assumption].
Qed.

(** [Math.min] of a non-empty list without NaN is an element of the list
    and is at most every element. *)
Lemma Math_min_least (values : list float) :
  values <> [] ->
  Forall (fun v => is_nan v = false) values ->
  In (Math_min values) values
  /\ Forall (fun v => (Math_min values <=? v)%float = true) values.
Proof.
  destruct values as [|v0 rest]; [congruence|]. intros _ Hv.
  inversion Hv as [|? ? H0 Hrest]; subst.
  assert (E : Math_min (v0 :: rest) = Math_min_from v0 rest).
  { unfold Math_min. rewrite Math_min_from_cons, H0. unfold lowers.
    change (classify infinity) with PInf.
    destruct (v0 <? infinity)%float eqn:Hlt.
    - destruct (classify v0); reflexivity.
    - rewrite (@below_infinity v0 H0 Hlt).
      destruct (classify infinity); reflexivity. }
  rewrite E.
  destruct (@Math_min_from_least rest v0 H0 Hrest) as (Hin & Hle & Hall).
  split; [assumption|now constructor].
Qed.

Lemma Math_max_from_cons (highest number : float) (rest : list float) :
  Math_max_from highest (number :: rest)
  = if is_nan number then nan
    else if raises number highest then Math_max_from number rest
         else Math_max_from highest rest.
Proof.
  unfold raises. simpl. destruct (is_nan number); [reflexivity|].
  destruct (classify number), (classify highest); reflexivity.
Qed.

Lemma raises_leb (number highest : float) :
  is_nan number = false -> is_nan highest = false ->
  if raises number highest then (highest <=? number)%float = true
  else (number <=? highest)%float = true.
Proof.
  intros Hn Hh. unfold raises.
  destruct (classify number) eqn:Cn, (classify highest) eqn:Ch;
    try (destruct (highest <? number)%float eqn:E;
         [now apply ltb_leb|now apply not_ltb_leb]).
  now apply zeros_leb.
Qed.

Lemma Math_max_from_greatest (values : list float) :
  forall highest,
    is_nan highest = false ->
    Forall (fun v => is_nan v = false) values ->
    In (Math_max_from highest values) (highest :: values)
    /\ (highest <=? Math_max_from highest values)%float = true
    /\ Forall (fun v => (v <=? Math_max_from highest values)%float = true)
         values.
Proof.
  induction values as [|number rest IH]; intros highest Hh Hv.
  - simpl. repeat split; [now left|now apply leb_refl|constructor].
  - inversion Hv as [|? ? Hn Hrest]; subst.
    rewrite Math_max_from_cons, Hn.
    pose proof (@raises_leb number highest Hn Hh) as Hcmp.
    destruct (raises number highest).
    + destruct (IH number Hn Hrest) as (Hin & Hle & Hall).
      repeat split.
      * now right.
      * exact (@leb_trans _ _ _ Hcmp Hle).
      * now constructor.
    + destruct (IH highest Hh Hrest) as (Hin & Hle & Hall).
      repeat split.
      * destruct Hin as [Hin|Hin]; [now left|now right; right].
      * assumption.
      * constructor; [exact (@leb_trans _ _ _ Hcmp Hle)|assumption].
Qed.

(** [Math.max] of a non-empty list without NaN is an element of the list
    and is at least every element. *)
Lemma Math_max_greatest (values : list float) :
  values <> [] ->
  Forall (fun v => is_nan v = false) values ->
  In (Math_max values) values
  /\ Forall (fun v => (v <=? Math_max values)%float = true) values.
Proof.
  destruct values as [|v0 rest]; [congruence|]. intros _ Hv.
  inversion Hv as [|? ? H0 Hrest]; subst.
  assert (E : Math_max (v0 :: rest) = Math_max_from v0 rest).
  { unfold Math_max. rewrite Math_max_from_cons, H0. unfold raises.
    change (classify neg_infinity) with NInf.
    destruct (neg_infinity <? v0)%float eqn:Hlt.
    - destruct (classify v0); reflexivity.
    - rewrite (@above_neg_infinity v0 H0 Hlt).
      destruct (classify neg_infinity); reflexivity. }
  rewrite E.
  destruct (@Math_max_from_greatest rest v0 H0 Hrest) as (Hin & Hle & Hall).
  split; [assumption|now constructor].
Qed.

End Numbers.

(** ** The range filter *)

Section RangeFilter.

Variable records : list DailyNormal.

Lemma filter_twice (p q : DailyNormal -> bool) (l : list DailyNormal) :
  filter q (filter p l) = filter (fun r => p r && q r) l.
Proof.
  induction l as [|r l IH]; simpl; [reflexivity|].
  destruct (p r); simpl; [destruct (q r)|]; rewrite IH; reflexivity.
Qed.

Lemma filter_fixed (p : DailyNormal -> bool) (l : list DailyNormal) :
  filter p (filter p l) = filter p l.
Proof.
  apply forallb_filter_id, forallb_filter.
Qed.

Lemma filterNormalsByDate_filter (l : list DailyNormal)
    (startDate endDate : option string) :
  filterNormalsByDate l startDate endDate
  = filter (in_given_range startDate endDate) l.
Proof.
  unfold filterNormalsByDate, in_given_range, in_range.
  destruct startDate as [start|], endDate as [end_|]; simpl;
    repeat match goal with
           | |- context [negb (?s =? "")] => destruct (s =? ""); simpl
           end;
    rewrite ?filter_twice.
  all: try (apply filter_ext; intro r; rewrite ?andb_true_r; reflexivity).
  all: symmetry; apply filter_true.
Qed.

(** C5, as amended: the result is the order-preserving subsequence of the
    records whose date is at least the start bound and at most the end
    bound, dates compared as strings, where a bound constrains only when it
    is a non-empty string; an absent or empty bound leaves that side open. *)
Theorem C5_filter_is_range_subsequence (startDate endDate : option string) :
  filterNormalsByDate records startDate endDate
  = filter (fun r =>
              match startDate with
              | Some start => (start =? "") || str_ge (date r) start
              | None => true
              end
              && match endDate with
                 | Some end_ => (end_ =? "") || str_le (date r) end_
                 | None => true
                 end) records.
Proof.
  rewrite filterNormalsByDate_filter.
  apply filter_ext; intro r.
  unfold in_given_range, in_range, truthy_string.
  destruct startDate as [start|], endDate as [end_|]; simpl;
    repeat match goal with
           | |- context [?s =? ""] => destruct (s =? ""); simpl
           end; reflexivity.
Qed.

(** C9: filtering the output of the filter again, with the same bounds,
    returns that output unchanged. *)
Theorem C9_filter_idempotent (startDate endDate : option string) :
  filterNormalsByDate (filterNormalsByDate records startDate endDate)
    startDate endDate
  = filterNormalsByDate records startDate endDate.
Proof.
  rewrite !filterNormalsByDate_filter.
  apply filter_fixed.
Qed.

(** C10: an empty-string start or end bound behaves as an absent one: it
    gives the same result as no bound on that side, whatever the other
    bound is, and with both bounds empty every record is kept. *)
Theorem C10_empty_bound_is_absent (startDate endDate : option string) :
  filterNormalsByDate records (Some "") endDate
  = filterNormalsByDate records None endDate
  /\ filterNormalsByDate records startDate (Some "")
     = filterNormalsByDate records startDate None
  /\ filterNormalsByDate records (Some "") (Some "") = records.
Proof.
  repeat split.
Qed.

End RangeFilter.

(** C5, as stated, fails: an empty-string end bound is given, and the
    claim would keep only dates at most [""], yet the code keeps the
    record. *)
Lemma C5_empty_end_bound_keeps_records :
  filterNormalsByDate [null_row "USW00014739" "20240101"] None (Some "")
  = [null_row "USW00014739" "20240101"]
  /\ filter (in_range None (Some "")) [null_row "USW00014739" "20240101"] = []
  /\ filterNormalsByDate [null_row "USW00014739" "20240101"] None (Some "")
     <> filter (in_range None (Some "")) [null_row "USW00014739" "20240101"].
Proof.
  repeat split. discriminate.
Qed.

(** ** The summarizer *)

Section Summarizer.

Lemma non_null_nil (f : DailyNormal -> option float)
    (records : list DailyNormal) :
  non_null f records = [] <-> forall r, In r records -> f r = None.
Proof.
  unfold non_null. induction records as [|r l IH]; simpl.
  - tauto.
  - destruct (f r) as [v|] eqn:E; simpl.
    + split; [discriminate|].
      intro H. specialize (H r (or_introl eq_refl)). congruence.
    + rewrite IH. split.
      * intros H r' [<-|Hin]; auto.
      * intros H r' Hin. apply H. now right.
Qed.

(** Empty input gives count 0 and null aggregates. *)
Lemma summarizeNormals_nil : summarizeNormals [] = no_summary.
Proof. reflexivity. Qed.

(** Without any mean temperature the early return is taken, whatever the
    number of records and whatever their minima and maxima. *)
Lemma summarizeNormals_without_mean (records : list DailyNormal) :
  (forall r, In r records -> meanTempF r = None) ->
  summarizeNormals records = no_summary.
Proof.
  intro H. apply non_null_nil in H.
  unfold summarizeNormals. rewrite H. reflexivity.
Qed.

(** With some mean temperature the count is the number of records and the
    extrema are [Math.min] and [Math.max] of the values present. *)
Lemma summarizeNormals_with_mean (records : list DailyNormal) :
  (exists r, In r records /\ meanTempF r <> None) ->
  count (summarizeNormals records) = Z.of_nat (List.length records)
  /\ minOfMinTempF (summarizeNormals records)
     = Some (Math_min (non_null minTempF records))
  /\ maxOfMaxTempF (summarizeNormals records)
     = Some (Math_max (non_null maxTempF records)).
Proof.
  intros (r & Hin & Hr).
  unfold summarizeNormals.
  destruct (non_null meanTempF records) eqn:E.
  - apply non_null_nil with (r := r) in E; [contradiction|assumption].
  - repeat split.
Qed.

Lemma non_null_In (f : DailyNormal -> option float)
    (records : list DailyNormal) (v : float) :
  In v (non_null f records) <-> exists r, In r records /\ f r = Some v.
Proof.
  unfold non_null. rewrite in_flat_map. split.
  - intros (r & Hr & Hv). exists r. split; [assumption|].
    destruct (f r) as [w|]; simpl in Hv; [|contradiction].
    destruct Hv as [->|[]]. reflexivity.
  - intros (r & Hr & Hv). exists r. split; [assumption|].
    rewrite Hv. now left.
Qed.

(** With some mean temperature, some minimum and no NaN among the minima,
    [minOfMinTempF] is the least of the minima present; likewise
    [maxOfMaxTempF] is the greatest of the maxima present. *)
Lemma summarizeNormals_extrema (records : list DailyNormal) :
  (exists r, In r records /\ meanTempF r <> None) ->
  ((exists r, In r records /\ minTempF r <> None) ->
   (forall r v, In r records -> minTempF r = Some v -> is_nan v = false) ->
   exists lo,
     minOfMinTempF (summarizeNormals records) = Some lo
     /\ (exists r, In r records /\ minTempF r = Some lo)
     /\ forall r v, In r records -> minTempF r = Some v ->
                    (lo <=? v)%float = true)
  /\ ((exists r, In r records /\ maxTempF r <> None) ->
      (forall r v, In r records -> maxTempF r = Some v -> is_nan v = false) ->
      exists hi,
        maxOfMaxTempF (summarizeNormals records) = Some hi
        /\ (exists r, In r records /\ maxTempF r = Some hi)
        /\ forall r v, In r records -> maxTempF r = Some v ->
                       (v <=? hi)%float = true).
Proof.
  intro Hmean.
  destruct (summarizeNormals_with_mean records Hmean) as (_ & Hmin & Hmax).
  split; intros (r0 & Hr0 & Hsome) Hnan.
  - destruct (@Math_min_least (non_null minTempF records)) as (Hin & Hall).
    + intro E. apply non_null_nil with (r := r0) in E; congruence.
    + apply Forall_forall. intros v Hv.
      apply non_null_In in Hv. destruct Hv as (r & Hr & Hv). eauto.
    + eexists. split; [exact Hmin|]. split.
      * now apply non_null_In.
      * intros r v Hr Hv. rewrite Forall_forall in Hall.
        apply Hall, non_null_In. eauto.
  - destruct (@Math_max_greatest (non_null maxTempF records)) as (Hin & Hall).
    + intro E. apply non_null_nil with (r := r0) in E; congruence.
    + apply Forall_forall. intros v Hv.
      apply non_null_In in Hv. destruct Hv as (r & Hr & Hv). eauto.
    + eexists. split; [exact Hmax|]. split.
      * now apply non_null_In.
      * intros r v Hr Hv. rewrite Forall_forall in Hall.
        apply Hall, non_null_In. eauto.
Qed.

End Summarizer.

(** C1 at the failing input: one record whose temperature fields are all
    null.  The input has length 1 and the count returned is 0. *)
Theorem C1_count_zero_for_all_null_record :
  List.length [null_row "USW00014739" "20240101"] = 1%nat
  /\ summarizeNormals [null_row "USW00014739" "20240101"] = no_summary
  /\ count (summarizeNormals [null_row "USW00014739" "20240101"]) = 0%Z.
Proof. repeat split. Qed.

(** C2 at the failing inputs.  A record with a mean but no minimum or
    maximum gives [Infinity] and [-Infinity], not null; a record with a
    minimum and a maximum but no mean gives null, not 40 and 60. *)
Theorem C2_extrema_follow_the_mean_guard :
  minOfMinTempF (summarizeNormals [mean_only_row]) = Some infinity
  /\ maxOfMaxTempF (summarizeNormals [mean_only_row]) = Some neg_infinity
  /\ minOfMinTempF (summarizeNormals [min_max_only_row]) = None
  /\ maxOfMaxTempF (summarizeNormals [min_max_only_row]) = None.
Proof. repeat split. Qed.

(** ** The CSV parser *)

Section Parser.

Variable station : string.

(** A body without a non-blank line makes [lines[0]] undefined. *)
Lemma parseCsv_blank_body (csvText : string) :
  (forall l, In l (split_lines csvText) -> blank l = true) ->
  parseCsv station csvText = Throw undefined_toLowerCase.
Proof.
  intro H. unfold parseCsv.
  replace (filter (fun l => negb (trim l =? "")) (split_lines csvText))
    with (@nil string); [reflexivity|].
  symmetry. induction (split_lines csvText) as [|l ls IH]; simpl.
  - reflexivity.
  - pose proof (H l (or_introl eq_refl)) as Hl. unfold blank in Hl.
    rewrite Hl. simpl. apply IH. intros l' Hin. apply H. now right.
Qed.

(** A body with a non-blank line is parsed: one record per non-blank line
    after the header, none of them failing. *)
Lemma parseCsv_returns (csvText : string) :
  (exists l, In l (split_lines csvText) /\ blank l = false) ->
  exists first rest,
    filter (fun l => negb (blank l)) (split_lines csvText) = first :: rest
    /\ parseCsv station csvText
       = Return (map (parseRow station)
                   (if includes (toLowerCase first) "date" then rest
                    else first :: rest)).
Proof.
  intros (l & Hin & Hl). unfold parseCsv, blank in *.
  destruct (filter (fun l => negb (trim l =? "")) (split_lines csvText))
    as [|first rest] eqn:E.
  - assert (In l []) as [].
    rewrite <- E. apply filter_In. split; [assumption|]. now rewrite Hl.
  - exists first, rest. split; reflexivity.
Qed.

(** A numeric cell is null exactly when [parseFloat] gives NaN, and a
    missing cell is null. *)
Lemma parseNumber_null (value : option string) :
  parseNumber value = None <-> is_nan (parseFloat value) = true.
Proof.
  unfold parseNumber, Number_isNaN.
  destruct (is_nan (parseFloat value)); split; congruence.
Qed.

Lemma parseNumber_missing : parseNumber None = None.
Proof. reflexivity. Qed.

(** A parsed number is never NaN. *)
Lemma parseNumber_not_nan (value : option string) (x : float) :
  parseNumber value = Some x -> is_nan x = false.
Proof.
  unfold parseNumber, Number_isNaN.
  destruct (is_nan (parseFloat value)) eqn:E; [discriminate|].
  intros [= <-]. exact E.
Qed.

(** Every row has the station asked for, the first cell as its date, and
    the next four cells read as numbers. *)
Lemma parseRow_fields (line : string) :
  let cells := split "," line in
  let r := parseRow station line in
  NormalsClient.station r = station
  /\ Some (date r) = nth_error cells 0
  /\ meanTempF r = parseNumber (nth_error cells 1)
  /\ maxTempF r = parseNumber (nth_error cells 2)
  /\ minTempF r = parseNumber (nth_error cells 3)
  /\ precipIn r = parseNumber (nth_error cells 4).
Proof.
  unfold parseRow.
  cbn [NormalsClient.station date meanTempF maxTempF minTempF precipIn].
  repeat split.
  unfold split. destruct line as [|c line]; simpl; [reflexivity|].
  destruct (c =? ",")%char; [reflexivity|].
  generalize (String c EmptyString). clear.
  induction line as [|c line IH]; intro cur; simpl; [reflexivity|].
  destruct (c =? ",")%char; [reflexivity|apply IH].
Qed.

End Parser.

(** C3 at the failing inputs: for an empty body, and for a body of blank
    lines only, [parseCsv] throws a [TypeError] instead of returning. *)
Theorem C3_parseCsv_throws_on_blank_body (station : string) :
  parseCsv station "" = Throw undefined_toLowerCase
  /\ parseCsv station ("  " ++ String "010" "   ")
     = Throw undefined_toLowerCase.
Proof. split; reflexivity. Qed.

(** ** The fetcher *)

Section Fetcher.

Lemma prefix_app (b c : string) : prefix b (b ++ c) = true.
Proof.
  induction b as [|x b IH]; simpl.
  - destruct c; reflexivity.
  - destruct (ascii_dec x x); [assumption|contradiction].
Qed.

Lemma append_assoc (a b c : string) : a ++ b ++ c = (a ++ b) ++ c.
Proof.
  induction a as [|x a IH]; simpl; congruence.
Qed.

Lemma prefix_refl (b : string) : prefix b b = true.
Proof.
  induction b as [|x b IH]; simpl; [reflexivity|].
  destruct (ascii_dec x x); [assumption|contradiction].
Qed.

Lemma includes_prefix (s sub : string) :
  prefix sub s = true -> includes s sub = true.
Proof.
  destruct s; simpl; intros ->; reflexivity.
Qed.

Lemma includes_app (a b c : string) : includes (a ++ b ++ c) b = true.
Proof.
  induction a as [|x a IH]; simpl.
  - apply includes_prefix, prefix_app.
  - rewrite IH. apply orb_true_r.
Qed.

Lemma includes_suffix (a b : string) : includes (a ++ b) b = true.
Proof.
  induction a as [|x a IH]; simpl.
  - apply includes_prefix, prefix_refl.
  - rewrite IH. apply orb_true_r.
Qed.

Variable upstream : Upstream.
Variable station : string.

(** C6, as amended: a response status of 400 or more makes the fetch fail
    with an error whose message carries the status code and the station
    id; a request error makes the fetch fail with that error; any other
    response has its body handed to [parseCsv]. *)
Theorem C6_fetch_outcomes :
  let settled := snd (fetchNormalsForStation upstream station) in
  (forall statusCode chunks,
      upstream (normals_url station) = Response (Some statusCode) chunks ->
      (400 <= statusCode)%Z ->
      exists e, settled = Throw e
                /\ includes (message e) (status_text statusCode) = true
                /\ includes (message e) station = true)
  /\ (forall e, upstream (normals_url station) = RequestError e ->
                settled = Throw e)
  /\ (forall statusCode chunks,
         upstream (normals_url station) = Response statusCode chunks ->
         (forall n, statusCode = Some n -> (n < 400)%Z) ->
         settled = parseCsv station (fold_left append chunks "")).
Proof.
  unfold fetchNormalsForStation, fetch_csvText. simpl.
  repeat split.
  - intros statusCode chunks -> Hge.
    replace (400 <=? statusCode)%Z with true by (symmetry; apply Z.leb_le; lia).
    replace (statusCode =? 0)%Z with false by (symmetry; apply Z.eqb_neq; lia).
    cbn [negb andb bind].
    exists (upstream_error statusCode station). split; [reflexivity|].
    unfold upstream_error. cbn [message]. split.
    + apply (includes_app "HTTP " (status_text statusCode)).
    + rewrite !append_assoc. apply includes_suffix.
  - intros e ->. reflexivity.
  - intros [n|] chunks -> Hlt; [|reflexivity].
    specialize (Hlt n eq_refl).
    replace (400 <=? n)%Z with false by (symmetry; apply Z.leb_gt; lia).
    rewrite andb_false_r. reflexivity.
Qed.

End Fetcher.

(** C6, as stated, fails: a refused connection makes the fetch fail though
    no response status of 400 or more was received. *)
Lemma C6_request_error_fails_without_status :
  snd (fetchNormalsForStation refusing "USW00014739")
  = Throw (mkError "Error" "connect ECONNREFUSED")
  /\ ~ status_at_least_400 (refusing (normals_url "USW00014739")).
Proof.
  split; [reflexivity|].
  intros (statusCode & chunks & H & _). discriminate H.
Qed.

(** At a 404 the message reads as the template gives it. *)
Lemma C6_fetch_outcomes_witness :
  exists e, snd (fetchNormalsForStation not_found "USW00014739") = Throw e
            /\ includes (message e) "404" = true
            /\ includes (message e) "USW00014739" = true.
Proof.
  destruct (C6_fetch_outcomes not_found "USW00014739") as (H & _).
  apply (H 404%Z ["NoSuchKey"] eq_refl). lia.
Defined.

(** ** The request handler *)

Section Handler.

Variable upstream : Upstream.
Variable req : NextApiRequest.

(** C4: a missing, empty or non-string station is answered with status 400
    and a message, without any upstream request; otherwise the records fetched
    are filtered, the filtered records summarized, and status 200 carries
    the station, the echoed bounds, the filtered records and their
    summary; an error thrown on the way is logged and answered with status
    500 and the error's message, or the fallback when the message is
    empty. *)
Theorem C4_handler_contract :
  ((q_station req = QUndefined \/ q_station req = QString ""
    \/ exists l, q_station req = QArray l) ->
   handler upstream req
   = ([], {| status := 400;
             json := ErrorBody "Missing or invalid 'station' parameter" |}))
  /\ (forall station, q_station req = QString station -> station <> "" ->
      let startDate := string_or_undefined (q_startDate req) in
      let endDate := string_or_undefined (q_endDate req) in
      (forall all,
          snd (fetchNormalsForStation upstream station) = Return all ->
          let filtered := filterNormalsByDate all startDate endDate in
          handler upstream req
          = ([HttpsGet (normals_url station)],
             {| status := 200;
                json := Normals {| r_station := station;
                                   r_startDate := startDate;
                                   r_endDate := endDate;
                                   r_records := filtered;
                                   r_summary := summarizeNormals filtered |} |}))
      /\ (forall err,
             snd (fetchNormalsForStation upstream station) = Throw err ->
             handler upstream req
             = ([HttpsGet (normals_url station); ConsoleError err],
                {| status := 500;
                   json := ErrorBody
                             (if message err =? ""
                              then "Failed to fetch climate normals"
                              else message err) |}))).
Proof.
  unfold handler. split.
  - intros [-> | [-> | (l & ->)]]; reflexivity.
  - intros station -> Hne. cbn [accepted_station].
    apply String.eqb_neq in Hne. rewrite Hne.
    unfold fetchNormalsForStation. cbn [snd].
    split.
    + intros all ->. reflexivity.
    + intros err ->. reflexivity.
Qed.

End Handler.

(** The contract at a request that succeeds: one upstream request, then
    status 200. *)
Lemma C4_handler_contract_witness :
  fst (handler two_rows sample_request)
  = [HttpsGet (normals_url "USW00014739")]
  /\ status (snd (handler two_rows sample_request)) = 200%Z
  /\ handler not_found sample_request
     = ([HttpsGet (normals_url "USW00014739");
         ConsoleError (upstream_error 404 "USW00014739")],
        {| status := 500;
           json := ErrorBody "HTTP 404 from NOAA for station USW00014739" |}).
Proof.
  destruct (C4_handler_contract two_rows sample_request) as (_ & H).
  destruct (H "USW00014739" eq_refl) as (Hok & _); [discriminate|].
  assert (exists all, snd (fetchNormalsForStation two_rows "USW00014739")
                      = Return all) as (all & E)
    by (vm_compute; eexists; reflexivity).
  rewrite (Hok all E).
  destruct (C4_handler_contract not_found sample_request) as (_ & H').
  destruct (H' "USW00014739" eq_refl) as (_ & Herr); [discriminate|].
  assert (snd (fetchNormalsForStation not_found "USW00014739")
          = Throw (upstream_error 404 "USW00014739")) as E'
    by (vm_compute; reflexivity).
  rewrite (Herr _ E').
  repeat split.
Defined.

(** ** The forecast aggregator *)

Section Forecast.
Import Weather Means PageInputs.
Local Open Scope list_scope.

Lemma In_existsb_eqb (d : string) (l : list string) :
  existsb (String.eqb d) l = true <-> In d l.
Proof.
  rewrite existsb_exists. split.
  - intros (x & Hin & Heq). apply String.eqb_eq in Heq. now subst.
  - intro Hin. exists d. split; [assumption|apply String.eqb_refl].
Qed.

Lemma In_distinct (x : string) (l : list string) :
  In x (distinct l) <-> In x l.
Proof.
  induction l as [|d l IH]; simpl; [tauto|].
  rewrite filter_In, IH, negb_true_iff, String.eqb_neq.
  destruct (string_dec d x) as [->|Hne]; [tauto|].
  split.
  - intros [H|[H _]]; auto.
  - intros [H|H]; [contradiction|]. right. split; congruence.
Qed.

Lemma NoDup_distinct (l : list string) : NoDup (distinct l).
Proof.
  induction l as [|d l IH]; simpl; constructor.
  - rewrite filter_In, negb_true_iff, String.eqb_neq. tauto.
  - now apply NoDup_filter.
Qed.

(** Reading one more date: it is appended when it is new. *)
Lemma distinct_snoc (l : list string) (d : string) :
  distinct (l ++ [d])
  = if existsb (String.eqb d) l then distinct l else distinct l ++ [d].
Proof.
  induction l as [|a l IH]; simpl; [reflexivity|].
  rewrite IH.
  destruct (String.eqb_spec d a) as [->|Hne]; simpl.
  - destruct (existsb (String.eqb a) l); [reflexivity|].
    rewrite filter_app. simpl. rewrite String.eqb_refl. simpl.
    now rewrite app_nil_r.
  - destruct (existsb (String.eqb d) l); [reflexivity|].
    rewrite filter_app. simpl.
    apply String.eqb_neq in Hne. rewrite Hne. reflexivity.
Qed.

Lemma distinct_length (l : list string) :
  List.length (distinct l) = List.length (nodup string_dec l).
Proof.
  apply Permutation_length, NoDup_Permutation.
  - apply NoDup_distinct.
  - apply NoDup_nodup.
  - intro x. now rewrite In_distinct, nodup_In.
Qed.

(** Lookup and [push] on an object built key by key. *)
Lemma own_map (f : string -> list Entry.t) (ks : list string) (d : string) :
  own (map (fun k => (k, f k)) ks) d
  = if existsb (String.eqb d) ks then Some (f d) else None.
Proof.
  induction ks as [|k ks IH]; simpl; [reflexivity|].
  rewrite (String.eqb_sym d k).
  destruct (String.eqb_spec k d) as [->|Hne]; simpl; [reflexivity|assumption].
Qed.

Lemma push_map (f : string -> list Entry.t) (ks : list string)
    (d : string) (e : Entry.t) :
  NoDup ks ->
  push (map (fun k => (k, f k)) ks) d e
  = map (fun k => (k, if k =? d then f k ++ [e] else f k)) ks.
Proof.
  induction 1 as [|k ks Hk Hks IH]; simpl; [reflexivity|].
  destruct (String.eqb_spec k d) as [->|Hne]; simpl.
  - f_equal. apply map_ext_in. intros k Hin.
    destruct (String.eqb_spec k d) as [->|_]; [contradiction|reflexivity].
  - now rewrite IH.
Qed.

Lemma push_last (daily : Daily) (d : string) (es : list Entry.t)
    (e : Entry.t) :
  ~ In d (map fst daily) ->
  push (daily ++ [(d, es)]) d e = daily ++ [(d, es ++ [e])].
Proof.
  induction daily as [|[k v] daily IH]; simpl; intro H.
  - now rewrite String.eqb_refl.
  - destruct (String.eqb_spec k d) as [->|Hne]; [tauto|].
    rewrite IH; tauto.
Qed.

Lemma entries_on_snoc (k : string) (l : list Entry.t) (e : Entry.t) :
  entries_on k (l ++ [e])
  = if date_of e =? k then entries_on k l ++ [e] else entries_on k l.
Proof.
  unfold entries_on. rewrite filter_app. simpl.
  destruct (date_of e =? k); [reflexivity|apply app_nil_r].
Qed.

Lemma entries_on_absent (k : string) (l : list Entry.t) :
  ~ In k (map date_of l) -> entries_on k l = [].
Proof.
  unfold entries_on. induction l as [|e l IH]; simpl; intro H; [reflexivity|].
  destruct (String.eqb_spec (date_of e) k) as [Heq|_]; tauto.
Qed.

Lemma entries_on_present (k : string) (l : list Entry.t) :
  In k (map date_of l) -> entries_on k l <> [].
Proof.
  unfold entries_on. induction l as [|e l IH]; simpl; [tauto|].
  destruct (String.eqb_spec (date_of e) k) as [Heq|Hne]; [discriminate|].
  intros [H|H]; [contradiction|auto].
Qed.

(** One step of the loop on the grouping of what was read so far. *)
Lemma group_entry_grouped (l : list Entry.t) (e : Entry.t) :
  group_entry (grouped l) e
  = if existsb (String.eqb (date_of e)) (map date_of l)
    then Return (grouped (l ++ [e]))
    else if inherited (date_of e) then Throw push_not_a_function
         else Return (grouped (l ++ [e])).
Proof.
  unfold group_entry, grouped.
  rewrite own_map, map_app. cbn [map]. rewrite distinct_snoc.
  assert (Hd : existsb (String.eqb (date_of e)) (distinct (map date_of l))
               = existsb (String.eqb (date_of e)) (map date_of l)).
  { apply eq_true_iff_eq. now rewrite !In_existsb_eqb, In_distinct. }
  rewrite Hd.
  destruct (existsb (String.eqb (date_of e)) (map date_of l)) eqn:E.
  - f_equal. rewrite push_map by apply NoDup_distinct.
    apply map_ext. intro k. rewrite entries_on_snoc.
    now rewrite (String.eqb_sym k).
  - destruct (inherited (date_of e)); [reflexivity|]. f_equal.
    assert (Hnot : ~ In (date_of e) (map date_of l)).
    { rewrite <- In_existsb_eqb. congruence. }
    rewrite push_last.
    + rewrite map_app. simpl. f_equal.
      * apply map_ext_in. intros k Hin. rewrite entries_on_snoc.
        destruct (String.eqb_spec (date_of e) k) as [<-|_]; [|reflexivity].
        exfalso. apply Hnot. now apply In_distinct.
      * rewrite entries_on_snoc, String.eqb_refl.
        now rewrite entries_on_absent.
    + rewrite map_map. simpl. rewrite map_id. now rewrite In_distinct.
Qed.

Lemma forEach_app (l1 l2 : list Entry.t) (daily : Daily) :
  forEach (l1 ++ l2) daily = bind (forEach l1 daily) (forEach l2).
Proof.
  revert daily. induction l1 as [|e l1 IH]; simpl; intro daily; [reflexivity|].
  destruct (group_entry daily e); simpl; [apply IH|reflexivity].
Qed.

(** The loop groups the entries by date, and throws exactly when a date is
    a name inherited from [Object.prototype]. *)
Lemma forEach_grouped (l : list Entry.t) :
  forEach l []
  = if existsb (fun e => inherited (date_of e)) l
    then Throw push_not_a_function
    else Return (grouped l).
Proof.
  induction l as [|e l IH] using rev_ind; [reflexivity|].
  rewrite forEach_app, IH, existsb_app. simpl. rewrite orb_false_r.
  destruct (existsb (fun e => inherited (date_of e)) l) eqn:E; simpl;
    [reflexivity|].
  rewrite group_entry_grouped.
  destruct (existsb (String.eqb (date_of e)) (map date_of l)) eqn:Hin.
  - replace (inherited (date_of e)) with false; [reflexivity|].
    apply In_existsb_eqb, in_map_iff in Hin. destruct Hin as (e' & Heq & Hin).
    rewrite <- Heq. symmetry.
    destruct (inherited (date_of e')) eqn:He'; [|reflexivity].
    rewrite <- E. symmetry. apply existsb_exists. eauto.
  - destruct (inherited (date_of e)); reflexivity.
Qed.

(** [Object.keys] reorders the names without adding or dropping any. *)
Lemma insert_index_perm (k : Z * string) (l : list (Z * string)) :
  Permutation (insert_index k l) (k :: l).
Proof.
  induction l as [|k' l IH]; simpl; [reflexivity|].
  destruct (fst k <=? fst k')%Z; [reflexivity|].
  rewrite IH. apply perm_swap.
Qed.

Lemma sort_index_perm (l : list (Z * string)) :
  Permutation (fold_right insert_index [] l) l.
Proof.
  induction l as [|k l IH]; simpl; [reflexivity|].
  now rewrite insert_index_perm, IH.
Qed.

Lemma split_by_perm (f : string -> bool) (l : list string) :
  Permutation (filter f l ++ filter (fun k => negb (f k)) l) l.
Proof.
  induction l as [|k l IH]; simpl; [reflexivity|].
  destruct (f k); simpl.
  - now rewrite IH.
  - rewrite <- Permutation_middle. now rewrite IH.
Qed.

Lemma index_names (l : list string) :
  map snd (flat_map (fun k => match array_index k with
                              | Some i => [(i, k)]
                              | None => []
                              end) l)
  = filter is_index l.
Proof.
  induction l as [|k l IH]; simpl; [reflexivity|].
  rewrite map_app, IH. unfold is_index.
  destruct (array_index k); reflexivity.
Qed.

Lemma Object_keys_perm (daily : Daily) :
  Permutation (Object_keys daily) (map fst daily).
Proof.
  unfold Object_keys.
  rewrite sort_index_perm, index_names.
  rewrite (filter_ext (fun k => match array_index k with
                                | Some _ => false
                                | None => true
                                end)
             (fun k => negb (is_index k))).
  - apply split_by_perm.
  - intro k. unfold is_index. destruct (array_index k); reflexivity.
Qed.

Lemma Object_keys_plain (daily : Daily) :
  (forall k, In k (map fst daily) -> array_index k = None) ->
  Object_keys daily = map fst daily.
Proof.
  intro H. unfold Object_keys.
  assert (Hnone : forall l : list string,
             (forall k, In k l -> array_index k = None) ->
             flat_map (fun k => match array_index k with
                                | Some i => [(i, k)]
                                | None => []
                                end) l = []).
  { induction l as [|k l IH]; simpl; intro Hl; [reflexivity|].
    rewrite (Hl k (or_introl eq_refl)). simpl.
    apply IH. intros k' Hk'. apply Hl. now right. }
  rewrite (Hnone _ H). simpl.
  apply forallb_filter_id, forallb_forall.
  intros k Hk. now rewrite (H k Hk).
Qed.

Lemma grouped_keys (l : list Entry.t) :
  map fst (grouped l) = distinct (map date_of l).
Proof.
  unfold grouped. rewrite map_map. apply map_id.
Qed.

Lemma slice0_incl (days : Z) (keys : list string) :
  incl (slice0 days keys) keys.
Proof.
  unfold slice0. intros k Hin.
  destruct (days <? 0)%Z;
    [rewrite <- (firstn_skipn
                   (Z.to_nat (Z.of_nat (List.length keys) + days)) keys)
    | rewrite <- (firstn_skipn (Z.to_nat days) keys)];
    apply in_or_app; now left.
Qed.

Lemma NoDup_firstn (n : nat) (l : list string) :
  NoDup l -> NoDup (firstn n l).
Proof.
  intro H. rewrite <- (firstn_skipn n l) in H.
  now apply NoDup_app_remove_r in H.
Qed.

Lemma summary_dates (daily : Daily) (sel : list string) :
  map Summary.date (map (summarize_date daily) sel) = sel.
Proof.
  rewrite map_map. apply map_id.
Qed.

(** The value of [summary] in closed form. *)
Lemma summary_grouped (l : list Entry.t) (days : Z) :
  summary l days
  = if existsb (fun e => inherited (date_of e)) l
    then Throw push_not_a_function
    else Return (map (summarize_date (grouped l))
                   (slice0 days (Object_keys (grouped l)))).
Proof.
  unfold summary. rewrite forEach_grouped.
  destruct (existsb _ l); reflexivity.
Qed.

Lemma no_inherited (l : list Entry.t) :
  (forall e, In e l -> inherited (date_of e) = false) ->
  existsb (fun e => inherited (date_of e)) l = false.
Proof.
  intro H. destruct (existsb _ l) eqn:E; [|reflexivity].
  apply existsb_exists in E. destruct E as (e & Hin & He).
  rewrite (H e Hin) in He. discriminate.
Qed.

(** Sortedness survives the removal of elements. *)
Lemma earliest_first_filter (f : string -> bool) (l : list string) :
  earliest_first l -> earliest_first (filter f l).
Proof.
  unfold earliest_first.
  induction 1 as [|a l Hl IH Ha]; simpl; [constructor|].
  destruct (f a); [|assumption].
  constructor; [assumption|].
  rewrite Forall_forall in *. intros x Hx.
  apply filter_In in Hx. now apply Ha.
Qed.

Lemma earliest_first_distinct (l : list string) :
  earliest_first l -> earliest_first (distinct l).
Proof.
  unfold earliest_first.
  induction 1 as [|a l Hl IH Ha]; simpl; constructor.
  - now apply earliest_first_filter.
  - rewrite Forall_forall in *. intros x Hx.
    apply filter_In in Hx. apply Ha, In_distinct. tauto.
Qed.

Lemma earliest_first_firstn (n : nat) (l : list string) :
  earliest_first l -> earliest_first (firstn n l).
Proof.
  unfold earliest_first. intro H. revert n.
  induction H as [|a l Hl IH Ha]; intros [|n]; simpl; constructor.
  - apply IH.
  - rewrite Forall_forall in *. intros x Hx. apply Ha.
    rewrite <- (firstn_skipn n l). apply in_or_app. now left.
Qed.

(** With a key, a city and a well-formed response, [fetchWeather] stores
    what [summary] returns, or the generic message when it throws. *)
Lemma fetchWeather_results (API_KEY city : string) (days : Z)
    (data_list : list Entry.t) (st : State) :
  API_KEY <> ""%string -> trim city <> ""%string ->
  fetchWeather API_KEY city days (Data data_list) st
  = match summary data_list days with
    | Return s => {| results := s; error := None |}
    | Throw _ =>
        {| results := [];
           error := Some "Unexpected error fetching weather data"%string |}
    end.
Proof.
  intros Hkey Hcity. unfold fetchWeather.
  apply String.eqb_neq in Hkey, Hcity. now rewrite Hkey, Hcity.
Qed.

(** C7, as amended: for a response none of whose dates is a name inherited
    from [Object.prototype], and a day count from 1 to 5, the aggregator
    returns one summary per selected date, the dates distinct and taken
    from the response, as many as the smaller of the day count and the
    number of distinct dates; when no date is an array index, the dates
    come in the order of their first occurrence in the response, which is
    earliest first when the response lists its entries earliest first. *)
Theorem C7_summary_per_date (data_list : list Entry.t) (days : Z) :
  (1 <= days <= 5)%Z ->
  (forall e, In e data_list -> inherited (date_of e) = false) ->
  exists s,
    summary data_list days = Return s
    /\ NoDup (map Summary.date s)
    /\ incl (map Summary.date s) (map date_of data_list)
    /\ List.length s
       = Nat.min (Z.to_nat days)
           (List.length (nodup string_dec (map date_of data_list)))
    /\ ((forall e, In e data_list -> array_index (date_of e) = None) ->
        map Summary.date s
        = firstn (Z.to_nat days) (distinct (map date_of data_list))
        /\ (earliest_first (map date_of data_list) ->
            earliest_first (map Summary.date s))).
Proof.
  intros Hdays Hplain.
  rewrite summary_grouped, (no_inherited _ Hplain).
  eexists. split; [reflexivity|].
  rewrite summary_dates.
  assert (Hslice : forall keys, slice0 days keys = firstn (Z.to_nat days) keys).
  { intro keys. unfold slice0.
    replace (days <? 0)%Z with false by (symmetry; apply Z.ltb_ge; lia).
    reflexivity. }
  rewrite Hslice.
  pose proof (Object_keys_perm (grouped data_list)) as Hperm.
  rewrite grouped_keys in Hperm.
  split; [|split; [|split]].
  - apply NoDup_firstn.
    apply (Permutation_NoDup (Permutation_sym Hperm)), NoDup_distinct.
  - intros d Hd. apply In_distinct.
    apply (Permutation_in _ Hperm).
    rewrite <- (firstn_skipn (Z.to_nat days) (Object_keys _)).
    apply in_or_app. now left.
  - rewrite length_map, length_firstn, (Permutation_length Hperm).
    now rewrite distinct_length.
  - intro Hidx.
    assert (Hkeys : Object_keys (grouped data_list)
                    = distinct (map date_of data_list)).
    { rewrite Object_keys_plain; [apply grouped_keys|].
      rewrite grouped_keys. intros k Hk.
      apply In_distinct, in_map_iff in Hk. destruct Hk as (e & <- & He).
      now apply Hidx. }
    rewrite Hkeys. split; [reflexivity|].
    intro Hsorted.
    now apply earliest_first_firstn, earliest_first_distinct.
Qed.

(** The floor of [v / 2 ^ k + 1 / 2] is [round_half_up v k]. *)
Lemma nearest_integer_dyadic (v : Z) (p : positive) :
  nearest_integer (QArith_base.Qmake v (2 ^ p))
  = round_half_up v (Zpos p).
Proof.
  unfold nearest_integer, round_half_up, QArith_base.Qplus.
  cbn [QArith_base.Qnum QArith_base.Qden Qround.Qfloor].
  rewrite Pos2Z.inj_mul, Pos2Z.inj_pow.
  rewrite Z.pow_add_r by lia.
  f_equal; lia.
Qed.

Lemma nearest_integer_integer (n : Z) :
  nearest_integer (QArith_base.inject_Z n) = n.
Proof.
  unfold nearest_integer, QArith_base.Qplus, QArith_base.inject_Z.
  cbn [QArith_base.Qnum QArith_base.Qden Qround.Qfloor].
  symmetry. apply (Z.div_unique _ _ _ 1); lia.
Qed.

Lemma tenths_integer (n : Z) :
  nearest_integer
    (QArith_base.Qmult (QArith_base.inject_Z 10) (QArith_base.inject_Z n))
  = (10 * n)%Z.
Proof.
  change (QArith_base.Qmult (QArith_base.inject_Z 10)
            (QArith_base.inject_Z n))
    with (QArith_base.inject_Z (10 * n)).
  apply nearest_integer_integer.
Qed.

Lemma tenths_dyadic (v : Z) (p : positive) :
  nearest_integer
    (QArith_base.Qmult (QArith_base.inject_Z 10)
       (QArith_base.Qmake v (2 ^ p)))
  = round_half_up (v * 10) (Zpos p).
Proof.
  change (QArith_base.Qmult (QArith_base.inject_Z 10)
            (QArith_base.Qmake v (2 ^ p)))
    with (QArith_base.Qmake (10 * v) (2 ^ p)).
  rewrite nearest_integer_dyadic. f_equal. lia.
Qed.

(** [toFixed(1)] renders the exact value to one decimal place. *)
Lemma toFixed_one_decimal (x : float) :
  prints_fixed x -> toFixed 1 x = one_decimal (exact_value x).
Proof.
  unfold prints_fixed, toFixed, one_decimal, exact_value.
  destruct (Prim2SF x) as [s|s| |s m e]; try contradiction; intro H.
  { reflexivity. }
  replace ((0 <=? e)%Z && (10 ^ 21 <=? Zpos m * 2 ^ e)%Z)%bool with false.
  2:{ symmetry. apply andb_false_iff.
      destruct H as [He|Hv]; [left; apply Z.leb_gt|right; apply Z.leb_gt];
        assumption. }
  unfold toFixed_n.
  assert (Hm : (0 < Zpos m * 2 ^ e \/ e < 0)%Z).
  { destruct (Z.leb_spec 0 e); [left|right; assumption].
    apply Z.mul_pos_pos; [lia|]. now apply Z.pow_pos_nonneg. }
  destruct (Z.leb_spec 0 e) as [He|He].
  - destruct Hm as [Hm|Hm]; [|lia].
    destruct s; cbn [cond_Zopp].
    + replace (QArith_base.Qle_bool _ _) with false.
      2:{ symmetry. unfold QArith_base.Qle_bool, QArith_base.inject_Z.
          cbn [QArith_base.Qnum QArith_base.Qden]. apply Z.leb_gt. lia. }
      change (QArith_base.Qopp (QArith_base.inject_Z (- Zpos m * 2 ^ e)))
        with (QArith_base.inject_Z (- (- Zpos m * 2 ^ e))).
      rewrite tenths_integer. do 2 f_equal.
      change (Z.of_nat 1) with 1%Z. lia.
    + replace (QArith_base.Qle_bool _ _) with true.
      2:{ symmetry. unfold QArith_base.Qle_bool, QArith_base.inject_Z.
          cbn [QArith_base.Qnum QArith_base.Qden]. apply Z.leb_le. lia. }
      rewrite tenths_integer. cbn [append]. f_equal.
      change (Z.of_nat 1) with 1%Z. lia.
  - assert (Hp : Zpos (Z.to_pos (- e)) = (- e)%Z) by (apply Z2Pos.id; lia).
    destruct s; cbn [cond_Zopp].
    + replace (QArith_base.Qle_bool _ _) with false by reflexivity.
      change (QArith_base.Qopp
                (QArith_base.Qmake (- Zpos m) (2 ^ Z.to_pos (- e))))
        with (QArith_base.Qmake (Zpos m) (2 ^ Z.to_pos (- e))).
      rewrite tenths_dyadic, Hp. reflexivity.
    + replace (QArith_base.Qle_bool _ _) with true by reflexivity.
      rewrite tenths_dyadic, Hp. reflexivity.
Qed.

(** [Math.round] gives the nearest integer. *)
Lemma Math_round_rounded (y : float) : Math_round y = rounded y.
Proof.
  unfold Math_round, rounded, has_fraction, is_negative, exact_value.
  destruct (Prim2SF y) as [s|s| |s m e]; try reflexivity.
  destruct (Z.leb_spec 0 e) as [He|He].
  - replace (e <? 0)%Z with false by (symmetry; apply Z.ltb_ge; lia).
    reflexivity.
  - replace (e <? 0)%Z with true by (symmetry; apply Z.ltb_lt; lia).
    rewrite nearest_integer_dyadic.
    rewrite Z2Pos.id by lia. reflexivity.
Qed.

Lemma partial_sum_app (xs ys : list float) (k : nat) :
  (k <= List.length xs)%nat ->
  partial_sum (xs ++ ys) k = partial_sum xs k.
Proof.
  induction k as [|k IH]; intro H; cbn [partial_sum]; [reflexivity|].
  rewrite IH by lia. now rewrite app_nth1 by lia.
Qed.

(** [reduce] from 0 gives the last partial sum. *)
Lemma reduce_partial_sum (xs : list float) :
  fold_left (fun acc val => acc + val)%float xs zero
  = partial_sum xs (List.length xs).
Proof.
  induction xs as [|x xs IH] using rev_ind; [reflexivity|].
  rewrite fold_left_app, length_app, Nat.add_1_r. cbn [fold_left partial_sum].
  rewrite partial_sum_app by lia. rewrite IH. f_equal.
  rewrite app_nth2, Nat.sub_diag by lia. reflexivity.
Qed.

Lemma average_float_mean (xs : list float) : average xs = float_mean xs.
Proof.
  unfold average, float_mean. now rewrite reduce_partial_sum.
Qed.

Lemma summarize_date_summary_of (l : list Entry.t) (d : string) :
  In d (distinct (map date_of l)) ->
  summarize_date (grouped l) d = summary_of l d.
Proof.
  intro Hd. unfold summarize_date, summary_of, grouped. rewrite own_map.
  replace (existsb (String.eqb d) (distinct (map date_of l)))
    with true by (symmetry; now apply In_existsb_eqb).
  now rewrite !average_float_mean.
Qed.

(** C8, as amended: for a response none of whose dates is a name inherited
    from [Object.prototype], the aggregator returns one summary per
    selected date, in the order of the selected dates; every selected date
    has entries, and its summary carries the binary64 mean of the date's
    temperatures rendered by [toFixed(1)] and [Math.round] of the binary64
    mean of the date's probabilities times 100, where the binary64 mean
    adds the values one at a time in response order from 0, every partial
    sum rounded, and divides the last by their number.  [toFixed(1)] of a
    finite mean below [10 ^ 21] is its exact value to one decimal place,
    and [Math.round] gives the nearest integer, the larger one on a tie.
    Temperatures 70, 72, 74 give ["72.0"], probabilities 0.1 and 0.3
    give 20. *)
Theorem C8_summary_values (data_list : list Entry.t) (days : Z) :
  (forall e, In e data_list -> inherited (date_of e) = false) ->
  exists s,
    summary data_list days = Return s
    /\ map Summary.date s = slice0 days (Object_keys (grouped data_list))
    /\ Forall
         (fun r =>
            let temps :=
              map Entry.main_temp (entries_on (Summary.date r) data_list) in
            let pops :=
              map Entry.pop (entries_on (Summary.date r) data_list) in
            let avgTemp := float_mean temps in
            let avgPop := float_mean pops in
            temps <> [] /\ pops <> []
            /\ Summary.avgTemp r = toFixed 1 avgTemp
            /\ (prints_fixed avgTemp ->
                Summary.avgTemp r = one_decimal (exact_value avgTemp))
            /\ Summary.pop r = Math_round (avgPop * number_of_Z 100)%float
            /\ Summary.pop r = rounded (avgPop * number_of_Z 100)%float
            /\ (temps = [70; 72; 74]%float
                -> Summary.avgTemp r = "72.0"%string)
            /\ (pops = [0.1; 0.3]%float -> Summary.pop r = 20%float)) s.
Proof.
  intro Hplain.
  rewrite summary_grouped, (no_inherited _ Hplain).
  eexists. split; [reflexivity|]. split.
  { rewrite map_map. cbn [summarize_date Summary.date]. apply map_id. }
  apply Forall_forall. intros r Hr.
  apply in_map_iff in Hr. destruct Hr as (d & <- & Hd).
  apply slice0_incl in Hd.
  apply (Permutation_in _ (Object_keys_perm _)) in Hd.
  rewrite grouped_keys in Hd.
  rewrite (@summarize_date_summary_of _ _ Hd).
  cbn [summary_of Summary.date Summary.avgTemp Summary.pop].
  assert (Hne : entries_on d data_list <> []).
  { apply entries_on_present. now rewrite <- In_distinct. }
  split; [|split; [|split; [|split; [|split; [|split; [|split]]]]]].
  - intro H. apply map_eq_nil in H. contradiction.
  - intro H. apply map_eq_nil in H. contradiction.
  - reflexivity.
  - apply toFixed_one_decimal.
  - reflexivity.
  - apply Math_round_rounded.
  - intros ->. vm_compute. reflexivity.
  - intros ->. vm_compute. reflexivity.
Qed.

End Forecast.

(** C7, as stated, fails: with the later date first in the response, the
    summaries come later date first. *)
Lemma C7_later_date_comes_first :
  exists s,
    Weather.summary later_first 2 = Return s
    /\ map Weather.Summary.date s = ["2024-01-02"; "2024-01-01"]
    /\ ~ earliest_first (map Weather.Summary.date s).
Proof.
  eexists. split; [vm_compute; reflexivity|]. split; [reflexivity|].
  intro H. apply StronglySorted_inv in H. destruct H as (_ & H).
  apply Forall_inv in H. vm_compute in H. discriminate H.
Qed.

(** Entries on exactly three dates and a day count of 5 give exactly three
    summaries, in the order of the dates. *)
Lemma C7_summary_per_date_witness :
  exists s,
    Weather.summary three_dates 5 = Return s
    /\ List.length s = 3%nat
    /\ map Weather.Summary.date s = ["2024-01-01"; "2024-01-02"; "2024-01-03"].
Proof.
  destruct (@C7_summary_per_date three_dates 5)
    as (s & Hs & _ & _ & Hlen & Hord).
  - lia.
  - apply Forall_forall. repeat constructor.
  - exists s. split; [assumption|]. split.
    + rewrite Hlen. reflexivity.
    + apply Hord. apply Forall_forall. repeat constructor.
Defined.

(** C8, as stated, fails: eight entries at 70.15 degrees have the
    arithmetic mean 70.15, which is rendered ["70.2"], as the aggregator
    renders a single such entry, but for the eight it gives ["70.1"]: the
    partial sums are rounded.  And four probabilities give 23 in one order
    and 22 in another, where the nearest integer to their mean times 100
    is 22 in either order. *)
Lemma C8_partial_sums_are_rounded :
  Weather.summary Means.eight_readings 1 = Return (Means.one_summary "70.1" 0)
  /\ Means.one_decimal
       (Means.arithmetic_mean
          (map Weather.Entry.main_temp Means.eight_readings)) = "70.2"%string
  /\ Weather.summary Means.one_reading 1 = Return (Means.one_summary "70.2" 0)
  /\ Weather.summary Means.four_pops 1 = Return (Means.one_summary "50.0" 23)
  /\ Weather.summary Means.four_pops_exchanged 1
     = Return (Means.one_summary "50.0" 22)
  /\ Permutation Means.four_pops Means.four_pops_exchanged
  /\ Means.percentage (map Weather.Entry.pop Means.four_pops) = 22%Z
  /\ Means.percentage (map Weather.Entry.pop Means.four_pops_exchanged)
     = 22%Z.
Proof.
  repeat split; try (vm_compute; reflexivity).
  unfold Means.four_pops, Means.four_pops_exchanged.
  do 2 apply perm_skip. apply perm_swap.
Qed.

(** The sample response, with 70, 72 and 74 degrees on the first date and
    the probabilities 0.1 and 0.3 on the second, gives the two summaries
    ["72.0"] with 50 and ["60.8"] with 20. *)
Lemma C8_summary_values_witness :
  Weather.summary sample_forecast 5 = Return sample_summaries.
Proof.
  destruct (@C8_summary_values sample_forecast 5)
    as (s & Hs & Hdates & Hall).
  { apply Forall_forall. repeat constructor. }
  rewrite Hs. f_equal.
  vm_compute in Hdates.
  destruct s as [|[d1 t1 p1] [|[d2 t2 p2] [|]]]; try discriminate Hdates.
  injection Hdates as -> ->.
  apply Forall_cons_iff in Hall. destruct Hall as (H1 & Hall).
  apply Forall_cons_iff in Hall. destruct Hall as (H2 & _).
  cbn [Weather.Summary.date Weather.Summary.avgTemp Weather.Summary.pop]
    in H1, H2.
  destruct H1 as (_ & _ & -> & _ & -> & _).
  destruct H2 as (_ & _ & -> & _ & -> & _).
  vm_compute. reflexivity.
Defined.

(* ================================================================== *)
(** * Part III: further properties of the code *)
(* ================================================================== *)

Import Derived.

(** ** More on the CSV parser *)

Section ParserMore.

Lemma parseCsv_kept (station csvText : string) :
  parseCsv station csvText
  = match kept_lines csvText with
    | [] => Throw undefined_toLowerCase
    | first :: rest =>
        Return (map (parseRow station)
                  (if has_header (first :: rest) then rest else first :: rest))
    end.
Proof.
  unfold parseCsv, kept_lines.
  destruct (filter _ (split_lines csvText)); reflexivity.
Qed.

(** X1: a body with at least one non-blank line is parsed without an
    error, into one record per non-blank line, in order, the first line
    not counted when it is taken for a header; each record's date is the
    text before the first comma of its line. *)
Theorem X1_parseCsv_one_record_per_line (station csvText : string) :
  kept_lines csvText <> [] ->
  exists records,
    parseCsv station csvText = Return records
    /\ List.length records
       = (List.length (kept_lines csvText)
          - (if has_header (kept_lines csvText) then 1 else 0))%nat
    /\ map date records
       = map (fun l => hd "" (split "," l))
           (if has_header (kept_lines csvText)
            then tl (kept_lines csvText) else kept_lines csvText).
Proof.
  intro Hne. rewrite parseCsv_kept.
  destruct (kept_lines csvText) as [|first rest]; [contradiction|].
  eexists. split; [reflexivity|].
  rewrite length_map, map_map.
  destruct (has_header (first :: rest)); simpl; split;
    try reflexivity; lia.
Qed.

(** X2: every record that [parseCsv] returns carries the station asked
    for, and none of its four numeric fields is NaN: a cell that does not
    start with a number is null. *)
Theorem X2_parseCsv_records_well_formed (station csvText : string)
    (records : list DailyNormal) :
  parseCsv station csvText = Return records ->
  Forall (fun r =>
            NormalsClient.station r = station
            /\ never_nan (meanTempF r) /\ never_nan (minTempF r)
            /\ never_nan (maxTempF r) /\ never_nan (precipIn r)) records.
Proof.
  rewrite parseCsv_kept.
  destruct (kept_lines csvText) as [|first rest]; [discriminate|].
  intros [= <-]. apply Forall_forall. intros r Hr.
  apply in_map_iff in Hr. destruct Hr as (line & <- & _).
  assert (Hnan : forall v, never_nan (parseNumber v)).
  { intro v. unfold never_nan.
    destruct (parseNumber v) as [x|] eqn:E; [|exact I].
    exact (parseNumber_not_nan v E). }
  unfold parseRow. cbn. repeat split; apply Hnan.
Qed.

Lemma split_from_app (sep : ascii) (a b cur : string) :
  split_from sep cur (a ++ String sep b)
  = (split_from sep cur a ++ split sep b)%list.
Proof.
  revert cur. induction a as [|c a IH]; intro cur; simpl.
  - now rewrite Ascii.eqb_refl.
  - destruct (c =? sep)%char; simpl; now rewrite IH.
Qed.

(** X3: cells after the fifth are ignored: a line with at least five cells
    gives the same record whatever further cells follow. *)
Theorem X3_parseRow_ignores_further_cells (station line more : string) :
  (5 <= List.length (split "," line))%nat ->
  parseRow station (line ++ "," ++ more) = parseRow station line.
Proof.
  intro Hlen. unfold parseRow.
  change (line ++ "," ++ more) with (line ++ String "," more).
  unfold split at 1 2 3 4 5. rewrite split_from_app.
  fold (split "," line).
  destruct (split "," line) as [|c0 cells] eqn:E; [simpl in Hlen; lia|].
  simpl in Hlen.
  rewrite !nth_error_app1 by (simpl; lia). reflexivity.
Qed.

Lemma split_lines_from_clean (l cur : string) :
  free_of is_line_end l = true ->
  split_lines_from cur l = [cur ++ l]
  /\ (forall rest,
         split_lines_from cur (l ++ LF ++ rest)
         = (cur ++ l) :: split_lines_from "" rest)
  /\ (forall rest,
         split_lines_from cur (l ++ CRLF ++ rest)
         = (cur ++ l) :: split_lines_from "" rest).
Proof.
  assert (Hnil : forall s : string, s ++ "" = s)
    by (induction s; simpl; congruence).
  revert cur. induction l as [|c l IH]; intros cur Hl.
  - rewrite Hnil. repeat split; intro rest; reflexivity.
  - cbn [free_of] in Hl. apply andb_true_iff in Hl. destruct Hl as (Hc & Hl).
    unfold is_line_end in Hc. apply negb_true_iff, orb_false_iff in Hc.
    destruct Hc as (Hlf & Hcr).
    destruct (IH (cur ++ String c "") Hl) as (H1 & H2 & H3).
    assert (Hcur : (cur ++ String c "") ++ l = cur ++ String c l).
    { rewrite <- append_assoc. reflexivity. }
    rewrite Hcur in *.
    repeat split; [|intro rest|intro rest];
      cbn [append split_lines_from]; rewrite Hlf, Hcr; cbn [andb].
    + destruct l; exact H1.
    + specialize (H2 rest). destruct (l ++ LF ++ rest); exact H2.
    + specialize (H3 rest). destruct (l ++ CRLF ++ rest); exact H3.
Qed.

Lemma split_lines_join (sep : string) (ls : list string) :
  sep = LF \/ sep = CRLF ->
  ls <> [] ->
  Forall (fun l => free_of is_line_end l = true) ls ->
  split_lines (join sep ls) = ls.
Proof.
  intros Hsep Hne Hclean. unfold split_lines.
  induction Hclean as [|l ls Hl Hls IH]; [contradiction|].
  destruct (split_lines_from_clean l "" Hl) as (H1 & H2 & H3).
  destruct ls as [|l' ls'].
  - exact H1.
  - change (join sep (l :: l' :: ls')) with (l ++ sep ++ join sep (l' :: ls')).
    destruct Hsep as [-> | ->]; [rewrite H2|rewrite H3];
      (f_equal; apply IH; discriminate).
Qed.

(** X4: splitting into lines undoes joining: lines without CR or LF,
    joined by LF or by CR LF, are split back into the same lines, so a
    body gives the same records with either line ending. *)
Theorem X4_line_endings_round_trip (station : string) (ls : list string) :
  ls <> [] ->
  Forall (fun l => free_of is_line_end l = true) ls ->
  split_lines (join LF ls) = ls
  /\ split_lines (join CRLF ls) = ls
  /\ parseCsv station (join CRLF ls) = parseCsv station (join LF ls).
Proof.
  intros Hne Hclean.
  assert (H1 := split_lines_join (or_introl eq_refl) Hne Hclean).
  assert (H2 := split_lines_join (or_intror eq_refl) Hne Hclean).
  repeat split; try assumption.
  rewrite !parseCsv_kept. unfold kept_lines. now rewrite H1, H2.
Qed.

End ParserMore.

(** The sample body has a header and two rows: two records come back. *)
Lemma X1_parseCsv_one_record_per_line_witness :
  exists records,
    parseCsv "USW00014739" wide_rows = Return records
    /\ List.length records = 2%nat
    /\ map date records = ["20240101"; "20240102"].
Proof.
  destruct (@X1_parseCsv_one_record_per_line "USW00014739" wide_rows)
    as (records & H & Hlen & Hdates).
  - vm_compute. discriminate.
  - exists records. repeat split; assumption.
Defined.

Lemma X2_parseCsv_records_well_formed_witness :
  exists records,
    parseCsv "USW00014739" wide_rows = Return records
    /\ Forall (fun r => NormalsClient.station r = "USW00014739"
                        /\ never_nan (meanTempF r) /\ never_nan (minTempF r)
                        /\ never_nan (maxTempF r) /\ never_nan (precipIn r))
         records.
Proof.
  assert (exists records, parseCsv "USW00014739" wide_rows = Return records)
    as (records & E) by (vm_compute; eexists; reflexivity).
  exists records. split; [assumption|].
  exact (@X2_parseCsv_records_well_formed "USW00014739" wide_rows records E).
Defined.

Lemma X3_parseRow_ignores_further_cells_witness :
  parseRow "USW00014739" ("20240101,50.5,60,40,0.1" ++ "," ++ "extra,more")
  = parseRow "USW00014739" "20240101,50.5,60,40,0.1".
Proof.
  apply X3_parseRow_ignores_further_cells. vm_compute. lia.
Defined.

Lemma X4_line_endings_round_trip_witness :
  split_lines (join CRLF ["DATE,MEAN"; "20240101,50.5"])
  = ["DATE,MEAN"; "20240101,50.5"]
  /\ parseCsv "USW00014739" (join CRLF ["DATE,MEAN"; "20240101,50.5"])
     = parseCsv "USW00014739" (join LF ["DATE,MEAN"; "20240101,50.5"]).
Proof.
  destruct (@X4_line_endings_round_trip "USW00014739"
              ["DATE,MEAN"; "20240101,50.5"]) as (_ & H2 & H3).
  - discriminate.
  - repeat constructor.
  - split; assumption.
Defined.

Import Inputs.

(** ** More on the range filter *)

Section RangeFilterMore.

Lemma ascii_compare_refl (x : ascii) : Ascii.compare x x = Eq.
Proof. unfold Ascii.compare. apply N.compare_refl. Qed.

Lemma compare_lt_trans (a b c : string) :
  String.compare a b = Lt -> String.compare b c = Lt ->
  String.compare a c = Lt.
Proof.
  revert b c. induction a as [|x a IH]; intros [|y b] [|z c]; simpl;
    try discriminate; try reflexivity.
  unfold Ascii.compare.
  destruct (N.compare_spec (N_of_ascii x) (N_of_ascii y)) as [Hxy|Hxy|Hxy],
           (N.compare_spec (N_of_ascii y) (N_of_ascii z)) as [Hyz|Hyz|Hyz];
    try discriminate; intros Hab Hbc.
  - rewrite Hxy, Hyz, N.compare_refl. now apply IH with b.
  - rewrite Hxy. now apply N.compare_lt_iff in Hyz as ->.
  - rewrite <- Hyz. now apply N.compare_lt_iff in Hxy as ->.
  - assert (H : (N_of_ascii x < N_of_ascii z)%N) by lia.
    now apply N.compare_lt_iff in H as ->.
Qed.

Lemma compare_refl (a : string) : String.compare a a = Eq.
Proof.
  induction a as [|x a IH]; simpl; [reflexivity|].
  now rewrite ascii_compare_refl.
Qed.

(** Nothing lies between a bound and a smaller bound. *)
Lemma inverted_bounds (d start end_ : string) :
  str_lt end_ start = true ->
  str_ge d start && str_le d end_ = false.
Proof.
  unfold str_ge, str_le, str_lt, String.ltb. intro Hinv.
  destruct (String.compare end_ start) eqn:Hes; try discriminate.
  destruct (String.compare d start) eqn:Hds; [| reflexivity |].
  - apply String.compare_eq_iff in Hds. subst d. now rewrite Hes.
  - destruct (String.compare end_ d) eqn:Hed; [| reflexivity |].
    + apply String.compare_eq_iff in Hed. subst d. congruence.
    + rewrite String.compare_antisym in Hds, Hed.
      destruct (String.compare start d) eqn:Hsd; try discriminate.
      destruct (String.compare d end_) eqn:Hde; try discriminate.
      pose proof (compare_lt_trans _ _ _ Hsd Hde) as Hse.
      rewrite String.compare_antisym, Hse in Hes. discriminate.
Qed.

(** Only the bound itself lies between a bound and itself. *)
Lemma same_bounds (d bound : string) :
  str_ge d bound && str_le d bound = (d =? bound).
Proof.
  unfold str_ge, str_le, str_lt, String.ltb.
  rewrite (String.compare_antisym bound d).
  destruct (String.eqb_spec d bound) as [->|Hne].
  - now rewrite compare_refl.
  - destruct (String.compare d bound) eqn:E; try reflexivity.
    apply String.compare_eq_iff in E. contradiction.
Qed.

Variable records : list DailyNormal.

(** X5: two range filters commute: filtering by one pair of bounds and
    then by another gives the same records as the other order. *)
Theorem X5_filters_commute (s1 e1 s2 e2 : option string) :
  filterNormalsByDate (filterNormalsByDate records s1 e1) s2 e2
  = filterNormalsByDate (filterNormalsByDate records s2 e2) s1 e1.
Proof.
  rewrite !filterNormalsByDate_filter, !filter_twice.
  apply filter_ext. intro r. apply andb_comm.
Qed.

(** X6: with the same non-empty string as start and as end, the filter
    keeps exactly the records of that date. *)
Theorem X6_single_day_range (d : string) :
  d <> "" ->
  filterNormalsByDate records (Some d) (Some d)
  = filter (fun r => date r =? d) records.
Proof.
  intro Hd. rewrite filterNormalsByDate_filter.
  apply filter_ext. intro r.
  unfold in_given_range, in_range, truthy_string.
  apply String.eqb_neq in Hd. rewrite Hd. cbn [negb].
  apply same_bounds.
Qed.

(** X7: with a non-empty end that is smaller than the start, the filter
    keeps no record. *)
Theorem X7_inverted_range_is_empty (start end_ : string) :
  end_ <> "" ->
  str_lt end_ start = true ->
  filterNormalsByDate records (Some start) (Some end_) = [].
Proof.
  intros Hend Hinv. rewrite filterNormalsByDate_filter.
  assert (Hstart : start <> "").
  { intros ->. unfold str_lt, String.ltb in Hinv.
    destruct end_; discriminate. }
  apply String.eqb_neq in Hend, Hstart.
  induction records as [|r l IH]; [reflexivity|].
  cbn [filter]. rewrite IH.
  unfold in_given_range, in_range, truthy_string.
  rewrite Hend, Hstart. cbn [negb].
  now rewrite inverted_bounds.
Qed.

End RangeFilterMore.

Lemma X6_single_day_range_witness :
  filterNormalsByDate three_days (Some "20240102") (Some "20240102")
  = [day "20240102" 52 41 63].
Proof.
  rewrite X6_single_day_range by discriminate. reflexivity.
Defined.

Lemma X7_inverted_range_is_empty_witness :
  filterNormalsByDate three_days (Some "20240103") (Some "20240101") = [].
Proof.
  apply X7_inverted_range_is_empty; [discriminate|reflexivity].
Defined.

(** ** More on the summarizer *)

Section SummarizerMore.

Variable records : list DailyNormal.

(** X8: the mean is null exactly when no record has a mean temperature,
    and then the count is 0; otherwise the count is the number of
    records. *)
Theorem X8_mean_null_iff_no_mean_temperature :
  (meanOfMeanTempF (summarizeNormals records) = None
   <-> forall r, In r records -> meanTempF r = None)
  /\ count (summarizeNormals records)
     = match meanOfMeanTempF (summarizeNormals records) with
       | None => 0%Z
       | Some _ => Z.of_nat (List.length records)
       end.
Proof.
  rewrite <- non_null_nil. unfold summarizeNormals.
  destruct (non_null meanTempF records); cbn; repeat split;
    intros; congruence.
Qed.

End SummarizerMore.

Lemma parseRow_never_nan (station line : string) :
  never_nan (meanTempF (parseRow station line))
  /\ never_nan (minTempF (parseRow station line))
  /\ never_nan (maxTempF (parseRow station line))
  /\ never_nan (precipIn (parseRow station line)).
Proof.
  assert (Hnan : forall v, never_nan (parseNumber v)).
  { intro v. unfold never_nan.
    destruct (parseNumber v) as [x|] eqn:E; [|exact I].
    exact (parseNumber_not_nan v E). }
  unfold parseRow. cbn. repeat split; apply Hnan.
Qed.

(** X9: parse, filter, summarize: on the records of a parsed body that
    fall in a range, when some record has a mean temperature, the minimum
    reported is the least of the minima present and the maximum reported
    is the greatest of the maxima present. *)
Theorem X9_pipeline_extrema (station csvText : string)
    (all : list DailyNormal) (startDate endDate : option string) :
  parseCsv station csvText = Return all ->
  let selected := filterNormalsByDate all startDate endDate in
  (exists r, In r selected /\ meanTempF r <> None) ->
  ((exists r, In r selected /\ minTempF r <> None) ->
   exists lo,
     minOfMinTempF (summarizeNormals selected) = Some lo
     /\ (exists r, In r selected /\ minTempF r = Some lo)
     /\ forall r v, In r selected -> minTempF r = Some v ->
                    (lo <=? v)%float = true)
  /\ ((exists r, In r selected /\ maxTempF r <> None) ->
      exists hi,
        maxOfMaxTempF (summarizeNormals selected) = Some hi
        /\ (exists r, In r selected /\ maxTempF r = Some hi)
        /\ forall r v, In r selected -> maxTempF r = Some v ->
                       (v <=? hi)%float = true).
Proof.
  intros Hparse selected Hmean.
  assert (Hrow : forall r, In r selected -> exists line,
                   r = parseRow station line).
  { intros r Hr. subst selected.
    rewrite filterNormalsByDate_filter in Hr. apply filter_In in Hr.
    destruct Hr as (Hr & _).
    unfold parseCsv in Hparse.
    destruct (filter _ (split_lines csvText)); [discriminate|].
    injection Hparse as <-. apply in_map_iff in Hr.
    destruct Hr as (line & <- & _). now exists line. }
  destruct (summarizeNormals_extrema selected Hmean) as (Hmin & Hmax).
  split; intro Hsome.
  - apply Hmin; [assumption|]. intros r v Hr Hv.
    destruct (Hrow r Hr) as (line & ->).
    destruct (parseRow_never_nan station line) as (_ & H & _).
    rewrite Hv in H. exact H.
  - apply Hmax; [assumption|]. intros r v Hr Hv.
    destruct (Hrow r Hr) as (line & ->).
    destruct (parseRow_never_nan station line) as (_ & _ & H & _).
    rewrite Hv in H. exact H.
Qed.

Lemma X9_pipeline_extrema_witness :
  exists all lo hi,
    parseCsv "USW00014739" wide_rows = Return all
    /\ minOfMinTempF (summarizeNormals (filterNormalsByDate all None None))
       = Some lo
    /\ maxOfMaxTempF (summarizeNormals (filterNormalsByDate all None None))
       = Some hi
    /\ Forall (fun r => forall v, minTempF r = Some v ->
                                  (lo <=? v)%float = true) all
    /\ Forall (fun r => forall v, maxTempF r = Some v ->
                                  (v <=? hi)%float = true) all.
Proof.
  assert (exists all, parseCsv "USW00014739" wide_rows = Return all
                      /\ (exists r, In r all /\ meanTempF r <> None)
                      /\ (exists r, In r all /\ minTempF r <> None)
                      /\ (exists r, In r all /\ maxTempF r <> None))
    as (all & E & Hmean & Hmin & Hmax).
  { vm_compute. eexists. split; [reflexivity|].
    repeat split; eexists; (split; [left; reflexivity|discriminate]). }
  destruct (@X9_pipeline_extrema "USW00014739" wide_rows all None None E Hmean)
    as (Hlo & Hhi).
  destruct (Hlo Hmin) as (lo & Elo & _ & Hleast).
  destruct (Hhi Hmax) as (hi & Ehi & _ & Hgreatest).
  exists all, lo, hi. repeat split; try assumption;
    apply Forall_forall; intros r Hr v Hv; eauto.
Defined.

(** ** More on the request handler *)

Section HandlerMore.

Variable upstream : Upstream.

Lemma message_or_fallback_not_empty (err : Error) :
  message_or_fallback err <> "".
Proof.
  unfold message_or_fallback.
  destruct (String.eqb_spec (message err) ""); [discriminate|assumption].
Qed.

(** X10: the handler answers with status 400, 200 or 500 and nothing else.
    With 400 it has made no upstream request and logged nothing; with 200
    it has made exactly one request, logged nothing, and sends data; with
    500 it has made exactly one request, then logged the error, and sends
    an error text that is not empty. *)
Theorem X10_handler_answers (req : NextApiRequest) :
  let events := fst (handler upstream req) in
  let sent := snd (handler upstream req) in
  (status sent = 400%Z /\ events = []
   /\ json sent = ErrorBody "Missing or invalid 'station' parameter")
  \/ (exists station r,
         status sent = 200%Z
         /\ events = [HttpsGet (normals_url station)]
         /\ json sent = Normals r)
  \/ (exists station err text,
         status sent = 500%Z
         /\ events = [HttpsGet (normals_url station); ConsoleError err]
         /\ json sent = ErrorBody text /\ text <> "").
Proof.
  unfold handler.
  destruct (accepted_station (q_station req)) as [station|];
    [|left; repeat split].
  right. unfold fetchNormalsForStation.
  destruct (bind (fetch_csvText upstream station) (parseCsv station))
    as [all|err]; cbn.
  - left. eexists station, _. repeat split.
  - right. exists station, err, (message_or_fallback err).
    repeat split. apply message_or_fallback_not_empty.
Qed.

(** X11: in a data answer, every record is of the station answered for
    and lies within the bounds echoed, an empty bound leaving its side
    open; the summary is the summary of exactly the records sent, and its
    count is at most their number. *)
Theorem X11_data_answer_is_consistent (req : NextApiRequest)
    (r : NormalsResponse) :
  json (snd (handler upstream req)) = Normals r ->
  Forall (fun rec =>
            NormalsClient.station rec = r_station r
            /\ in_given_range (r_startDate r) (r_endDate r) rec = true)
         (r_records r)
  /\ r_summary r = summarizeNormals (r_records r)
  /\ (0 <= count (r_summary r) <= Z.of_nat (List.length (r_records r)))%Z.
Proof.
  unfold handler.
  destruct (accepted_station (q_station req)) as [station|]; [|discriminate].
  unfold fetchNormalsForStation.
  destruct (bind (fetch_csvText upstream station) (parseCsv station))
    as [all|err] eqn:E; cbn; [|discriminate].
  intros [= <-]. cbn. repeat split.
  - apply Forall_forall. intros rec Hrec.
    rewrite filterNormalsByDate_filter in Hrec. apply filter_In in Hrec.
    destruct Hrec as (Hrec & Hrange). split; [|assumption].
    destruct (fetch_csvText upstream station) as [csvText|]; [|discriminate].
    cbn in E. unfold parseCsv in E.
    destruct (filter _ (split_lines csvText)); [discriminate|].
    injection E as <-. apply in_map_iff in Hrec.
    destruct Hrec as (line & <- & _). reflexivity.
  - unfold summarizeNormals.
    destruct (non_null meanTempF _); cbn; lia.
  - unfold summarizeNormals.
    destruct (non_null meanTempF _); cbn; lia.
Qed.

(** X12: when the station is accepted and the upstream answers with a
    status of 400 or more, the handler answers with status 500 and the
    text "HTTP <status> from NOAA for station <station>", and logs that
    error. *)
Theorem X12_upstream_status_becomes_500 (req : NextApiRequest)
    (station : string) (statusCode : Z) (chunks : list string) :
  accepted_station (q_station req) = Some station ->
  upstream (normals_url station) = Response (Some statusCode) chunks ->
  (400 <= statusCode)%Z ->
  handler upstream req
  = ([HttpsGet (normals_url station);
      ConsoleError (upstream_error statusCode station)],
     {| status := 500;
        json := ErrorBody ("HTTP " ++ status_text statusCode
                           ++ " from NOAA for station " ++ station) |}).
Proof.
  intros Hst Hup Hge. unfold handler, fetchNormalsForStation, fetch_csvText.
  rewrite Hst, Hup.
  replace (400 <=? statusCode)%Z with true by (symmetry; apply Z.leb_le; lia).
  replace (statusCode =? 0)%Z with false by (symmetry; apply Z.eqb_neq; lia).
  cbn [negb andb bind app].
  unfold message_or_fallback, upstream_error. cbn [message].
  reflexivity.
Qed.

(** X13: when the station is accepted and the upstream answers below 400
    with a body that has no non-blank line, the handler does not answer
    with an empty data set: it answers with status 500 and the text of
    the [TypeError]. *)
Theorem X13_blank_body_becomes_500 (req : NextApiRequest)
    (station : string) (statusCode : Z) (chunks : list string) :
  accepted_station (q_station req) = Some station ->
  upstream (normals_url station) = Response (Some statusCode) chunks ->
  (statusCode < 400)%Z ->
  kept_lines (fold_left append chunks "") = [] ->
  handler upstream req
  = ([HttpsGet (normals_url station); ConsoleError undefined_toLowerCase],
     {| status := 500;
        json := ErrorBody (message undefined_toLowerCase) |}).
Proof.
  intros Hst Hup Hlt Hblank.
  unfold handler, fetchNormalsForStation, fetch_csvText.
  rewrite Hst, Hup.
  replace (400 <=? statusCode)%Z with false by (symmetry; apply Z.leb_gt; lia).
  rewrite andb_false_r. cbn [bind].
  unfold parseCsv. unfold kept_lines in Hblank. rewrite Hblank.
  reflexivity.
Qed.

End HandlerMore.

Lemma X11_data_answer_is_consistent_witness :
  exists r,
    json (snd (handler two_rows january_request)) = Normals r
    /\ Forall (fun rec => NormalsClient.station rec = "USW00014739")
         (r_records r)
    /\ r_summary r = summarizeNormals (r_records r).
Proof.
  assert (exists r, json (snd (handler two_rows january_request)) = Normals r
                    /\ r_station r = "USW00014739") as (r & E & Est)
    by (vm_compute; eexists; split; reflexivity).
  destruct (@X11_data_answer_is_consistent two_rows january_request r E)
    as (Hall & Hsum & _).
  exists r. repeat split; try assumption.
  rewrite <- Est. eapply Forall_impl; [|exact Hall]. now intros rec (H & _).
Defined.

Lemma X12_upstream_status_becomes_500_witness :
  snd (handler unavailable january_request)
  = {| status := 500;
       json := ErrorBody "HTTP 503 from NOAA for station USW00014739" |}.
Proof.
  rewrite (@X12_upstream_status_becomes_500 unavailable january_request
             "USW00014739" 503 ["Service Unavailable"] eq_refl eq_refl)
    by lia.
  reflexivity.
Defined.

Lemma X13_blank_body_becomes_500_witness :
  snd (handler empty_body january_request)
  = {| status := 500;
       json := ErrorBody
                 "Cannot read properties of undefined (reading 'toLowerCase')"
    |}.
Proof.
  rewrite (@X13_blank_body_becomes_500 empty_body january_request
             "USW00014739" 200 [] eq_refl eq_refl); [reflexivity|lia|].
  reflexivity.
Defined.

Import ForecastInputs.

(** ** More on the forecast aggregator *)

Section ForecastMore.
Import Weather.
Local Open Scope list_scope.

Variable data_list : list Entry.t.

(** X14: for any integral day count, when the aggregation returns, the
    number of summaries is the day count capped by the number of distinct
    dates; a count of 0 gives none, and a negative count drops that many
    of the last dates. *)
Theorem X14_summary_length (days : Z) (s : list Summary.t) :
  summary data_list days = Return s ->
  let n := Z.of_nat (List.length (nodup string_dec (map date_of data_list))) in
  Z.of_nat (List.length s)
  = if (days <? 0)%Z then Z.max 0 (n + days) else Z.min days n.
Proof.
  rewrite summary_grouped.
  destruct (existsb _ data_list); [discriminate|].
  intros [= <-] n. subst n.
  rewrite length_map, <- distinct_length, <- grouped_keys.
  rewrite <- (Permutation_length (Object_keys_perm (grouped data_list))).
  unfold slice0.
  destruct (days <? 0)%Z eqn:E; rewrite length_firstn; lia.
Qed.

(** X15: the aggregation throws exactly when some entry's date is a
    property name inherited from [Object.prototype]; [fetchWeather] then
    shows the generic message and no result. *)
Theorem X15_summary_throws_on_inherited_name (days : Z) :
  ((exists e, summary data_list days = Throw e)
   <-> exists entry, In entry data_list /\ inherited (date_of entry) = true)
  /\ forall API_KEY city st,
       API_KEY <> ""%string -> trim city <> ""%string ->
       (exists entry, In entry data_list
                      /\ inherited (date_of entry) = true) ->
       fetchWeather API_KEY city days (Data data_list) st
       = {| results := [];
            error := Some "Unexpected error fetching weather data"%string |}.
Proof.
  assert (Hiff : (exists e, summary data_list days = Throw e)
                 <-> exists entry, In entry data_list
                                   /\ inherited (date_of entry) = true).
  { rewrite summary_grouped, <- existsb_exists.
    destruct (existsb _ data_list); split; try discriminate; eauto.
    intros (e & He). discriminate. }
  split; [exact Hiff|].
  intros API_KEY city st Hkey Hcity Hin.
  rewrite fetchWeather_results by assumption.
  apply Hiff in Hin. destruct Hin as (e & ->). reflexivity.
Qed.

Lemma one_group_gains (e : Entry.t) (l : list Entry.t) (ks : list string) :
  NoDup ks -> In (date_of e) ks ->
  Permutation (flat_map (fun d => entries_on d (e :: l)) ks)
              (e :: flat_map (fun d => entries_on d l) ks).
Proof.
  induction 1 as [|k ks Hk Hks IH]; [contradiction|].
  intros Hin. cbn [flat_map]. unfold entries_on at 1. cbn [filter].
  fold (entries_on k l).
  destruct (String.eqb_spec (date_of e) k) as [Heq|Hne].
  - subst k. cbn [app]. apply perm_skip, Permutation_app_head.
    assert (Hsame : forall d, In d ks ->
                      entries_on d (e :: l) = entries_on d l).
    { intros d Hd. unfold entries_on. cbn [filter].
      destruct (String.eqb_spec (date_of e) d) as [<-|_];
        [contradiction|reflexivity]. }
    clear - Hsame. induction ks as [|d ks IH]; [reflexivity|].
    cbn [flat_map]. rewrite (Hsame d (or_introl eq_refl)).
    apply Permutation_app_head, IH. intros d' Hd'. apply Hsame. now right.
  - destruct Hin as [Hin|Hin]; [congruence|].
    rewrite (IH Hin). symmetry. apply Permutation_middle.
Qed.

Lemma groups_partition (l : list Entry.t) :
  Permutation (flat_map snd (grouped l)) l.
Proof.
  unfold grouped. rewrite flat_map_concat_map, map_map.
  cbn [snd]. rewrite <- flat_map_concat_map.
  assert (Hgen : forall ks, NoDup ks ->
                   (forall e, In e l -> In (date_of e) ks) ->
                   Permutation (flat_map (fun d => entries_on d l) ks) l).
  { induction l as [|e l IH]; intros ks Hks Hall.
    - clear. induction ks; [reflexivity|assumption].
    - rewrite one_group_gains; [|assumption|apply Hall; now left].
      apply perm_skip, IH; [assumption|].
      intros e' He'. apply Hall. now right. }
  apply Hgen; [apply NoDup_distinct|].
  intros e He. apply In_distinct, in_map. assumption.
Qed.

(** X16: the grouping loop, when it returns, has put every entry of the
    response in exactly one group: the groups have distinct dates, none
    is empty, each holds only entries of its date, and together they hold
    the entries of the response, each once. *)
Theorem X16_grouping_is_a_partition (daily : Daily) :
  forEach data_list [] = Return daily ->
  NoDup (map fst daily)
  /\ Forall (fun g => snd g <> []
                      /\ Forall (fun e => date_of e = fst g) (snd g)) daily
  /\ Permutation (flat_map snd daily) data_list.
Proof.
  rewrite forEach_grouped.
  destruct (existsb _ data_list); [discriminate|].
  intros [= <-]. split; [|split].
  - rewrite grouped_keys. apply NoDup_distinct.
  - unfold grouped. apply Forall_forall. intros g Hg.
    apply in_map_iff in Hg. destruct Hg as (d & <- & Hd). cbn [fst snd].
    split.
    + apply entries_on_present. now apply In_distinct.
    + apply Forall_forall. intros e He. unfold entries_on in He.
      apply filter_In in He. now apply String.eqb_eq.
  - apply groups_partition.
Qed.

(** X17: asking for more days only appends: for day counts
    [0 <= d1 <= d2], the summaries for [d1] are the first summaries for
    [d2]. *)
Theorem X17_more_days_append (d1 d2 : Z) (s1 s2 : list Summary.t) :
  (0 <= d1 <= d2)%Z ->
  summary data_list d1 = Return s1 ->
  summary data_list d2 = Return s2 ->
  exists more, s2 = s1 ++ more.
Proof.
  intros Hd. rewrite !summary_grouped.
  destruct (existsb _ data_list); [discriminate|].
  intros [= <-] [= <-].
  unfold slice0.
  replace (d1 <? 0)%Z with false by (symmetry; apply Z.ltb_ge; lia).
  replace (d2 <? 0)%Z with false by (symmetry; apply Z.ltb_ge; lia).
  set (keys := Object_keys (grouped data_list)).
  exists (map (summarize_date (grouped data_list))
            (skipn (Z.to_nat d1) (firstn (Z.to_nat d2) keys))).
  rewrite <- map_app. f_equal.
  rewrite <- (firstn_skipn (Z.to_nat d1) (firstn (Z.to_nat d2) keys)) at 1.
  f_equal. rewrite firstn_firstn. f_equal. lia.
Qed.

End ForecastMore.

Section ForecastEntry.
Import Weather.

Lemma hd_split_from (sep : ascii) (d rest cur : string) :
  free_of (Ascii.eqb sep) d = true ->
  hd ""%string (split_from sep cur d) = (cur ++ d)%string
  /\ hd ""%string (split_from sep cur (d ++ String sep rest))
     = (cur ++ d)%string.
Proof.
  assert (Hnil : forall s : string, (s ++ "")%string = s)
    by (induction s; simpl; congruence).
  revert cur. induction d as [|c d IH]; intros cur Hd.
  - cbn. rewrite Ascii.eqb_refl, Hnil. split; reflexivity.
  - cbn [free_of] in Hd. apply andb_true_iff in Hd. destruct Hd as (Hc & Hd).
    apply negb_true_iff in Hc. rewrite Ascii.eqb_sym in Hc.
    cbn [append split_from]. rewrite Hc.
    destruct (IH (cur ++ String c "")%string Hd) as (H1 & H2).
    rewrite <- append_assoc in H1, H2. split; assumption.
Qed.

(** X18: the date of an entry is the part of its [dt_txt] before the first
    space, and the whole [dt_txt] when it has no space. *)
Theorem X18_date_is_text_before_first_space (d time : string)
    (temp pop : float) :
  free_of (Ascii.eqb " ") d = true ->
  date_of (entry (d ++ " " ++ time) temp pop) = d
  /\ date_of (entry d temp pop) = d.
Proof.
  intro Hd. unfold date_of, entry, split. cbn [Entry.dt_txt].
  change (d ++ " " ++ time)%string with (d ++ String " " time)%string.
  destruct (@hd_split_from " " d time ""%string Hd) as (H1 & H2).
  split; assumption.
Qed.

(** X19: [fetchWeather] ends without an error exactly when there is a key,
    the city is not blank, the response is well-formed and its aggregation
    returns, and then the results are the summaries; without a key or with
    a blank city the results shown are left as they were; in every other
    case an error is shown with no result. *)
Theorem X19_fetchWeather_outcomes (API_KEY city : string) (days : Z)
    (fetched : FetchOutcome) (st : State) :
  let st' := fetchWeather API_KEY city days fetched st in
  (error st' = None
   <-> API_KEY <> ""%string /\ trim city <> ""%string
       /\ exists data_list s,
            fetched = Data data_list /\ summary data_list days = Return s)
  /\ (forall data_list s,
         error st' = None -> fetched = Data data_list ->
         summary data_list days = Return s -> results st' = s)
  /\ (API_KEY = ""%string \/ trim city = ""%string ->
      results st' = results st /\ error st' <> None)
  /\ (API_KEY <> ""%string -> trim city <> ""%string ->
      error st' <> None -> results st' = []).
Proof.
  unfold fetchWeather.
  destruct (String.eqb_spec API_KEY ""%string) as [Hk|Hk];
    [|destruct (String.eqb_spec (trim city) ""%string) as [Hc|Hc]];
    [| |destruct fetched as [| | |data_list];
        [| | |destruct (summary data_list days) as [s|e] eqn:E]];
    cbn; repeat split;
    try discriminate; try tauto; try congruence;
    try (intros (_ & _ & l & s' & Hl & Hs); congruence);
    try (intros; congruence).
  eauto.
Qed.

End ForecastEntry.

Lemma X14_summary_length_witness :
  exists s,
    Weather.summary three_dates 0 = Return s /\ List.length s = 0%nat.
Proof.
  assert (exists s, Weather.summary three_dates 0 = Return s) as (s & E)
    by (vm_compute; eexists; reflexivity).
  exists s. split; [assumption|].
  pose proof (@X14_summary_length three_dates 0 s E) as H.
  cbn [Z.ltb Z.compare] in H. lia.
Defined.

Lemma X16_grouping_is_a_partition_witness :
  exists daily,
    Weather.forEach sample_forecast [] = Return daily
    /\ NoDup (map fst daily)
    /\ Permutation (flat_map snd daily) sample_forecast.
Proof.
  assert (exists daily, Weather.forEach sample_forecast [] = Return daily)
    as (daily & E) by (vm_compute; eexists; reflexivity).
  destruct (@X16_grouping_is_a_partition sample_forecast daily E)
    as (Hnd & _ & Hperm).
  exists daily. repeat split; assumption.
Defined.

Lemma X17_more_days_append_witness :
  exists s1 s2 more,
    Weather.summary three_dates 1 = Return s1
    /\ Weather.summary three_dates 3 = Return s2
    /\ s2 = (s1 ++ more)%list.
Proof.
  assert (exists s1 s2, Weather.summary three_dates 1 = Return s1
                        /\ Weather.summary three_dates 3 = Return s2)
    as (s1 & s2 & E1 & E2) by (vm_compute; do 2 eexists; split; reflexivity).
  destruct (@X17_more_days_append three_dates 1 3 s1 s2) as (more & Hmore);
    try assumption; [lia|].
  exists s1, s2, more. repeat split; assumption.
Defined.

Lemma X18_date_is_text_before_first_space_witness :
  Weather.date_of (entry ("2024-01-01" ++ " " ++ "00:00:00") 70 0)
  = "2024-01-01".
Proof.
  apply (@X18_date_is_text_before_first_space "2024-01-01" "00:00:00" 70 0).
  reflexivity.
Defined.

Lemma X15_summary_throws_on_inherited_name_witness :
  Weather.fetchWeather "key" "Akron" 4 (Weather.Data with_inherited_name)
    initial
  = {| Weather.results := [];
       Weather.error := Some "Unexpected error fetching weather data" |}.
Proof.
  destruct (@X15_summary_throws_on_inherited_name with_inherited_name 4)
    as (_ & H).
  apply H; try discriminate.
  exists (entry "constructor 03:00:00" 71 0).
  split; [right; left; reflexivity|reflexivity].
Defined.

Lemma X19_fetchWeather_outcomes_witness :
  Weather.error
    (Weather.fetchWeather "key" "Akron" 4 (Weather.Data sample_forecast)
       initial) = None
  /\ Weather.results
       (Weather.fetchWeather "key" "Akron" 4 (Weather.Data sample_forecast)
          initial) = sample_summaries.
Proof.
  destruct (@X19_fetchWeather_outcomes "key" "Akron" 4
              (Weather.Data sample_forecast) initial) as (Hnone & Hres & _).
  assert (Hs : Weather.summary sample_forecast 4 = Return sample_summaries)
    by (vm_compute; reflexivity).
  assert (He : Weather.error
                 (Weather.fetchWeather "key" "Akron" 4
                    (Weather.Data sample_forecast) initial) = None).
  { apply Hnone. repeat split; try discriminate. eauto. }
  split; [exact He|]. exact (Hres _ _ He eq_refl Hs).
Defined.

(** ** The page *)

Section Page.
Import HomePage FailedResponse.

(** X20: whatever the request leads to, [handleSubmit] leaves the controls
    as they were and ends with [loading] off; it appends the user's text
    to the conversation, followed by one data message exactly when it ends
    without an error; and an error text is never empty. *)
Theorem X20_handleSubmit_bookkeeping (outcome : ApiOutcome) (st : State) :
  let st' := handleSubmit outcome st in
  loading st' = false
  /\ (input st', station st', startDate st', endDate st')
     = (input st, station st, startDate st, endDate st)
  /\ ((error st' = None
       /\ exists payload,
            messages st'
            = (messages st
               ++ [UserMessage (input st); DataMessage payload])%list)
      \/ (exists text,
             error st' = Some text /\ text <> ""
             /\ messages st'
                = (messages st ++ [UserMessage (input st)])%list)).
Proof.
  unfold handleSubmit.
  destruct (attempt outcome) as [msg|err] eqn:E; cbn; repeat split.
  - left. split; [reflexivity|].
    unfold attempt in E.
    destruct outcome as [err|status body]; [discriminate|].
    destruct (ok status); [|discriminate].
    destruct body as [json|e]; [|discriminate].
    injection E as <-. exists json. now rewrite <- app_assoc.
  - right. exists (message_or_unknown err). repeat split.
    unfold message_or_unknown.
    destruct (String.eqb_spec (message err) ""); [discriminate|assumption].
Qed.

Lemma message_or_unknown_not_empty (err : Error) :
  message_or_unknown err <> "".
Proof.
  unfold message_or_unknown.
  destruct (String.eqb_spec (message err) ""); [discriminate|assumption].
Qed.

(** On the bodies of the endpoint, [error_text] is what the page throws
    for any JSON body. *)
Lemma error_text_thrown (status : Z) (body : Completion Body) :
  mkError "Error" (error_text status body)
  = thrown status (parsed_body body).
Proof.
  destruct body as [[r|text]|e]; cbn; [|now destruct (text =? "")|reflexivity].
  unfold thrown, read_error, json_of_body.
  destruct (r_startDate r), (r_endDate r); reflexivity.
Qed.

(** X21: for a response that is not [ok], whatever its body, the error
    shown is never empty.  It is ["HTTP <status>"] when the body is not
    JSON and when it is a JSON value other than [null] without a truthy
    [error]; for the body [null] it is the message of the [TypeError] of
    reading [error].  With a truthy [error] it is that value converted to
    a string, the text itself for a string, when the conversion gives a
    text that is not empty; it is ["Unknown error"] when the conversion
    gives the empty string, and the message of the error when the
    conversion throws.  On the bodies of the endpoint this is the error
    [handleSubmit] ends with. *)
Theorem X21_error_of_a_failed_response (status : Z) :
  (forall parsed, shown status parsed <> "")
  /\ (forall e, shown status (Throw e) = "HTTP " ++ status_text status)
  /\ shown status (Return JNull) = message null_error
  /\ (forall errJson,
         errJson <> JNull ->
         (forall v, read_error errJson = Return (Some v) ->
                    truthy v = false) ->
         shown status (Return errJson) = "HTTP " ++ status_text status)
  /\ (forall members v,
         get "error" members = Some v -> truthy v = true ->
         shown status (Return (JObject members))
         = match ToString v with
           | Return text => if text =? "" then "Unknown error" else text
           | Throw e => message_or_unknown e
           end)
  /\ (forall text, text <> "" ->
         truthy (JString text) = true
         /\ ToString (JString text) = Return text)
  /\ (forall body st,
         ok status = false ->
         error (handleSubmit (Responded status body) st)
         = Some (shown status (parsed_body body))).
Proof.
  unfold shown.
  split; [intro; apply message_or_unknown_not_empty|].
  split; [reflexivity|]. split; [reflexivity|].
  split; [|split; [|split]].
  - intros errJson Hnull Hfalsy. unfold thrown.
    destruct (read_error errJson) as [[v|]|e] eqn:E.
    + rewrite (Hfalsy v eq_refl). reflexivity.
    + reflexivity.
    + destruct errJson; try discriminate E. now contradiction Hnull.
  - intros members v Hget Htruthy. unfold thrown. cbn [read_error].
    rewrite Hget, Htruthy. now destruct (ToString v).
  - intros text Hne. cbn [truthy ToString].
    apply String.eqb_neq in Hne. now rewrite Hne.
  - intros body st Hok. unfold handleSubmit, attempt. rewrite Hok.
    now rewrite error_text_thrown.
Qed.

Variable upstream : Upstream.

(** X22: page and endpoint together: when the handler answers with an
    error body, the page shows exactly the handler's error text and
    appends only the user's text. *)
Theorem X22_handler_error_reaches_the_page (st : State) (text : string) :
  json (snd (handler upstream (request_of st))) = ErrorBody text ->
  error (submit upstream st) = Some text
  /\ messages (submit upstream st)
     = (messages st ++ [UserMessage (input st)])%list.
Proof.
  unfold submit, outcome_of, handler.
  destruct (accepted_station (q_station (request_of st))) as [station|].
  - unfold fetchNormalsForStation.
    destruct (bind (fetch_csvText upstream station) (parseCsv station))
      as [all|err]; cbn; [discriminate|].
    intros [= <-]. unfold handleSubmit. cbn.
    pose proof (message_or_fallback_not_empty err) as Hne.
    apply String.eqb_neq in Hne. rewrite Hne. cbn.
    unfold message_or_unknown. cbn. rewrite Hne. split; reflexivity.
  - cbn. intros [= <-]. split; reflexivity.
Qed.

(** X23: page and endpoint together: with a station and both date controls
    left empty, when the fetch returns records, the page appends a data
    message with every record fetched, none filtered out, and their
    summary. *)
Theorem X23_empty_dates_give_every_record (st : State)
    (all : list DailyNormal) :
  station st <> "" -> startDate st = "" -> endDate st = "" ->
  snd (fetchNormalsForStation upstream (station st)) = Return all ->
  error (submit upstream st) = None
  /\ messages (submit upstream st)
     = (messages st
        ++ [UserMessage (input st);
            DataMessage
              (Normals {| r_station := station st;
                          r_startDate := Some "";
                          r_endDate := Some "";
                          r_records := map json_record all;
                          r_summary := json_summary (summarizeNormals all) |})
           ])%list.
Proof.
  intros Hst Hs He Hall.
  unfold submit, outcome_of, handler, request_of.
  cbn [q_station accepted_station].
  apply String.eqb_neq in Hst. rewrite Hst.
  unfold fetchNormalsForStation in *. cbn [snd] in Hall. rewrite Hall.
  cbn [q_startDate q_endDate string_or_undefined]. rewrite Hs, He.
  unfold handleSubmit. cbn. rewrite <- app_assoc. split; reflexivity.
Qed.

Lemma json_field_finite (v : option float) (y : float) :
  json_field v = Some y ->
  classify y <> NaN /\ classify y <> PInf /\ classify y <> NInf.
Proof.
  destruct v as [x|]; [|discriminate]. unfold json_field, json_number.
  destruct (classify x) eqn:C; try discriminate; intros [= <-];
    rewrite ?C; repeat split; discriminate.
Qed.

(** X24: page and endpoint together: a data message that a submit appends
    holds a data body, and every number in it, in the summary and in the
    records, is finite or null: an infinity or a NaN that the summarizer
    returns reaches the page as null. *)
Theorem X24_stored_numbers_are_finite (st : State) (payload : Body) :
  messages (submit upstream st)
  = (messages st ++ [UserMessage (input st); DataMessage payload])%list ->
  let finite v :=
    forall y, v = Some y ->
              classify y <> NaN /\ classify y <> PInf /\ classify y <> NInf in
  exists r,
    payload = Normals r
    /\ finite (meanOfMeanTempF (r_summary r))
    /\ finite (minOfMinTempF (r_summary r))
    /\ finite (maxOfMaxTempF (r_summary r))
    /\ Forall (fun rec => finite (meanTempF rec) /\ finite (minTempF rec)
                          /\ finite (maxTempF rec) /\ finite (precipIn rec))
         (r_records r).
Proof.
  intros H finite. subst finite. cbn beta.
  unfold submit, outcome_of, handler in H.
  destruct (accepted_station (q_station (request_of st))) as [station|].
  - unfold fetchNormalsForStation in H.
    destruct (bind (fetch_csvText upstream station) (parseCsv station))
      as [all|err]; unfold handleSubmit in H; cbn in H.
    + rewrite <- app_assoc in H. apply app_inv_head in H.
      injection H as <-. eexists. split; [reflexivity|].
      cbn [r_summary r_records json_summary meanOfMeanTempF minOfMinTempF
             maxOfMaxTempF].
      split; [|split; [|split]];
        try (intros y Hy; exact (json_field_finite _ Hy)).
      apply Forall_forall. intros rec Hrec.
      apply in_map_iff in Hrec. destruct Hrec as (rec0 & <- & _).
      cbn [json_record meanTempF minTempF maxTempF precipIn].
      split; [|split; [|split]];
        intros y Hy; exact (json_field_finite _ Hy).
    + apply app_inv_head in H. discriminate H.
  - unfold handleSubmit in H. cbn in H.
    apply app_inv_head in H. discriminate H.
Qed.

End Page.

Import PageInputs.

(** The bodies [null], [{"error": 42}], [{"error": []}],
    [{"error": {"toString": null}}] and [{"message": "no"}] of a response
    with status 502. *)
Lemma X21_error_of_a_failed_response_witness :
  FailedResponse.shown 502 (Return FailedResponse.JNull)
  = "Cannot read properties of null (reading 'error')"
  /\ FailedResponse.shown 502
       (Return (FailedResponse.JObject
                  [("error", FailedResponse.JNumber 42)])) = "42"
  /\ FailedResponse.shown 502
       (Return (FailedResponse.JObject
                  [("error", FailedResponse.JArray [])])) = "Unknown error"
  /\ FailedResponse.shown 502
       (Return (FailedResponse.JObject
                  [("error",
                    FailedResponse.JObject
                      [("toString", FailedResponse.JNull)])]))
     = "Cannot convert object to primitive value"
  /\ FailedResponse.shown 502
       (Return (FailedResponse.JObject
                  [("message", FailedResponse.JString "no")])) = "HTTP 502".
Proof.
  destruct (X21_error_of_a_failed_response 502)
    as (_ & _ & Hnull & Hother & Herror & _).
  split; [exact Hnull|]. split; [|split; [|split]].
  - rewrite (Herror [("error", FailedResponse.JNumber 42)] _
               eq_refl eq_refl).
    vm_compute. reflexivity.
  - rewrite (Herror [("error", FailedResponse.JArray [])] _
               eq_refl eq_refl).
    reflexivity.
  - rewrite (Herror [("error",
                      FailedResponse.JObject
                        [("toString", FailedResponse.JNull)])] _
               eq_refl eq_refl).
    reflexivity.
  - apply Hother; [discriminate|]. intros v H. discriminate H.
Defined.

Lemma X22_handler_error_reaches_the_page_witness :
  HomePage.error (HomePage.submit unavailable HomePage.start)
  = Some "HTTP 503 from NOAA for station USW00014820".
Proof.
  apply (@X22_handler_error_reaches_the_page unavailable HomePage.start).
  vm_compute. reflexivity.
Defined.

Lemma X23_empty_dates_give_every_record_witness :
  exists all,
    snd (fetchNormalsForStation two_rows "USW00014739") = Return all
    /\ List.length all = 2%nat
    /\ HomePage.error (HomePage.submit two_rows whole_record) = None
    /\ HomePage.messages (HomePage.submit two_rows whole_record)
       = [ HomePage.SystemMessage "ready";
           HomePage.UserMessage "Everything for station USW00014739";
           HomePage.DataMessage
             (Normals {| r_station := "USW00014739";
                         r_startDate := Some "";
                         r_endDate := Some "";
                         r_records := map HomePage.json_record all;
                         r_summary :=
                           HomePage.json_summary (summarizeNormals all) |}) ].
Proof.
  assert (exists all,
             snd (fetchNormalsForStation two_rows "USW00014739") = Return all
             /\ List.length all = 2%nat) as (all & E & Hlen)
    by (vm_compute; eexists; split; reflexivity).
  exists all. split; [assumption|]. split; [assumption|].
  apply (@X23_empty_dates_give_every_record two_rows whole_record all);
    [discriminate|reflexivity|reflexivity|exact E].
Defined.

Lemma X24_stored_numbers_are_finite_witness :
  exists payload r,
    HomePage.messages (HomePage.submit two_rows whole_record)
    = [ HomePage.SystemMessage "ready";
        HomePage.UserMessage "Everything for station USW00014739";
        HomePage.DataMessage payload ]
    /\ payload = Normals r
    /\ forall y, minOfMinTempF (r_summary r) = Some y -> classify y <> PInf.
Proof.
  assert (exists payload,
             HomePage.messages (HomePage.submit two_rows whole_record)
             = [ HomePage.SystemMessage "ready";
                 HomePage.UserMessage "Everything for station USW00014739";
                 HomePage.DataMessage payload ]) as (payload & E)
    by (vm_compute; eexists; reflexivity).
  destruct (@X24_stored_numbers_are_finite two_rows whole_record payload E)
    as (r & Hr & _ & Hmin & _).
  exists payload, r. repeat split; try assumption.
  intros y Hy. now destruct (Hmin y Hy) as (_ & H & _).
Defined.

(** ** More on the fetcher *)

Section FetcherMore.

Lemma fold_left_append_join (chunks : list string) (acc : string) :
  fold_left append chunks acc = acc ++ join "" chunks.
Proof.
  assert (Hnil : forall s : string, s ++ "" = s)
    by (induction s; simpl; congruence).
  revert acc. induction chunks as [|c r IH]; intro acc; cbn [fold_left].
  - cbn. now rewrite Hnil.
  - rewrite IH, <- append_assoc. f_equal.
    destruct r; cbn; [now rewrite Hnil|reflexivity].
Qed.

(** X25: how the network cuts the body into chunks does not matter: two
    responses with the same status whose chunks concatenate to the same
    text settle the fetch in the same way. *)
Theorem X25_chunking_does_not_matter (upstream1 upstream2 : Upstream)
    (station : string) (statusCode : option Z) (chunks1 chunks2 : list string) :
  upstream1 (normals_url station) = Response statusCode chunks1 ->
  upstream2 (normals_url station) = Response statusCode chunks2 ->
  join "" chunks1 = join "" chunks2 ->
  fetchNormalsForStation upstream1 station
  = fetchNormalsForStation upstream2 station.
Proof.
  intros H1 H2 Hsame. unfold fetchNormalsForStation, fetch_csvText.
  rewrite H1, H2, !fold_left_append_join. cbn [append]. now rewrite Hsame.
Qed.

End FetcherMore.

Lemma X25_chunking_does_not_matter_witness :
  fetchNormalsForStation two_rows "USW00014739"
  = fetchNormalsForStation two_rows_in_pieces "USW00014739".
Proof.
  eapply X25_chunking_does_not_matter; reflexivity.
Defined.

(** ** The format of the averages *)

Section Format.
Import Weather.

Lemma digits_only_append (a b : string) :
  digits_only a = true -> digits_only b = true ->
  digits_only (a ++ b) = true.
Proof.
  unfold digits_only. induction a as [|c a IH]; cbn; [auto|].
  intros [Hc Ha]%andb_prop Hb. rewrite Hc. cbn. auto.
Qed.

Lemma digits_only_substring (s : string) (i j : nat) :
  digits_only s = true -> digits_only (substring i j s) = true.
Proof.
  unfold digits_only. revert i j.
  induction s as [|c s IH]; intros [|i] [|j] H; cbn in *;
    try reflexivity; apply andb_prop in H; destruct H as [Hc Hs].
  - rewrite Hc. cbn. now apply IH.
  - now apply IH.
  - now apply IH.
Qed.

Lemma digits_only_zeros (k : nat) : digits_only (zeros k) = true.
Proof.
  induction k as [|k IH]; [reflexivity|exact IH].
Qed.

Lemma digits_only_digits_of_Z (n : Z) : digits_only (digits_of_Z n) = true.
Proof.
  unfold digits_of_Z.
  assert (H : forall u,
             digits_only (NilEmpty.string_of_uint u) = true).
  { induction u; cbn; auto. }
  destruct (N.to_uint (Z.to_N n)); try apply H. reflexivity.
Qed.

(** With one fraction digit, [toFixed] prints at least one digit, a
    point, and exactly one digit. *)
Lemma toFixed_digits_shape (n : Z) :
  exists a b,
    toFixed_digits 1 n = (a ++ "." ++ b)%string
    /\ digits_only a = true /\ (1 <= String.length a)%nat
    /\ digits_only b = true /\ String.length b = 1%nat.
Proof.
  unfold toFixed_digits.
  set (m := if (String.length (digits_of_Z n) <=? 1)%nat
            then (zeros (1 + 1 - String.length (digits_of_Z n))
                  ++ digits_of_Z n)%string
            else digits_of_Z n).
  assert (Hk : (2 <= String.length m)%nat).
  { subst m. destruct (Nat.leb_spec (String.length (digits_of_Z n)) 1).
    - rewrite length_append, zeros_length. lia.
    - lia. }
  assert (Hm : digits_only m = true).
  { subst m. destruct (String.length (digits_of_Z n) <=? 1)%nat.
    - apply digits_only_append;
        [apply digits_only_zeros|apply digits_only_digits_of_Z].
    - apply digits_only_digits_of_Z. }
  exists (substring 0 (String.length m - 1) m),
         (substring (String.length m - 1) 1 m).
  split; [reflexivity|].
  rewrite !substring_length by lia.
  repeat split; try lia; now apply digits_only_substring.
Qed.

Lemma toFixed_shape (x : float) :
  prints_fixed x ->
  exists sign a b,
    toFixed 1 x = (sign ++ a ++ "." ++ b)%string
    /\ (sign = "" \/ sign = "-")
    /\ digits_only a = true /\ (1 <= String.length a)%nat
    /\ digits_only b = true /\ String.length b = 1%nat.
Proof.
  unfold prints_fixed, toFixed.
  destruct (Prim2SF x) as [s|s| |s m e] eqn:E; try contradiction; intro H.
  - destruct (toFixed_digits_shape 0%Z) as (a & b & Hd & Hs).
    exists "", a, b. rewrite Hd. auto.
  - replace ((0 <=? e)%Z && (10 ^ 21 <=? Zpos m * 2 ^ e)%Z)%bool
      with false.
    + destruct (toFixed_digits_shape (toFixed_n 1 m e)) as (a & b & Hd & Hs).
      exists (if s then "-" else ""), a, b. rewrite Hd.
      destruct s; auto.
    + symmetry. apply andb_false_iff.
      destruct H as [He|Hv]; [left; apply Z.leb_gt|right; apply Z.leb_gt];
        assumption.
Qed.

(** X26: in every summary returned, when the average temperature of the
    date is finite and below [10 ^ 21] in magnitude, [avgTemp] is an
    optional minus sign, at least one decimal digit, a point and exactly
    one decimal digit. *)
Theorem X26_avgTemp_has_one_decimal (data_list : list Entry.t) (days : Z)
    (s : list Summary.t) (r : Summary.t) :
  summary data_list days = Return s ->
  In r s ->
  prints_fixed
    (average (map Entry.main_temp (entries_on (Summary.date r) data_list))) ->
  exists sign a b,
    Summary.avgTemp r = (sign ++ a ++ "." ++ b)%string
    /\ (sign = "" \/ sign = "-")
    /\ digits_only a = true /\ (1 <= String.length a)%nat
    /\ digits_only b = true /\ String.length b = 1%nat.
Proof.
  rewrite summary_grouped.
  destruct (existsb _ data_list); [discriminate|].
  intros [= <-] Hr. apply in_map_iff in Hr. destruct Hr as (d & <- & Hd).
  apply slice0_incl in Hd.
  apply (Permutation_in _ (Object_keys_perm _)) in Hd.
  rewrite grouped_keys in Hd.
  unfold summarize_date, grouped. rewrite own_map.
  replace (existsb (String.eqb d) (distinct (map date_of data_list)))
    with true by (symmetry; now apply In_existsb_eqb).
  cbn [Summary.date Summary.avgTemp]. apply toFixed_shape.
Qed.

End Format.

Lemma X26_avgTemp_has_one_decimal_witness :
  exists sign a b,
    "72.0" = (sign ++ a ++ "." ++ b)%string
    /\ (sign = "" \/ sign = "-")
    /\ digits_only a = true /\ (1 <= String.length a)%nat
    /\ digits_only b = true /\ String.length b = 1%nat.
Proof.
  assert (Hs : Weather.summary sample_forecast 5 = Return sample_summaries)
    by (vm_compute; reflexivity).
  apply (@X26_avgTemp_has_one_decimal sample_forecast 5 sample_summaries
           {| Weather.Summary.date := "2024-01-01";
              Weather.Summary.avgTemp := "72.0";
              Weather.Summary.pop := 50 |} Hs).
  - left. reflexivity.
  - vm_compute. left. reflexivity.
Defined.
